(** * NSE stealth-accumulation scanner: the analysis pipeline of [POST /api/analyze]

    A shallow embedding of the route handler (session locator, session
    fetcher, money-flow aggregator, ranker) and the properties its
    specification states about it.

    Numbers.  A JavaScript number is an IEEE-754 double.  Every number that
    enters the pipeline comes out of [safeNumber], which returns finite
    values only; the embedding carries those values as exact rationals [Q]:
    rounding and overflow of [+], [-], [*], [/] are not modelled, and every
    division of the handler sits behind a guard on its divisor.  The
    special values exist in [JsNumber], the result type of [Number(...)]
    and of [Math.log10]: the scores of the ranker, computed from a
    logarithm, are of that type.  [Math.log10] has no rational counterpart;
    its values on positive arguments are a parameter of the ranker. *)

From Stdlib Require Import QArith Qabs Qround Lqa ZArith Lia Bool List.
From Stdlib Require Import Strings.String Strings.Ascii DecimalString.
From Stdlib Require Import Sorting.Sorted Sorting.Permutation.
Import ListNotations.

Local Open Scope Q_scope.

(** ** JavaScript numbers at the boundary *)

Inductive JsNumber : Type :=
| Finite (q : Q)
| PosInfinity
| NegInfinity
| NaN.

(** [Number.isFinite]. *)
Definition isFinite (n : JsNumber) : bool :=
  match n with
  | Finite _ => true
  | _ => false
  end.

(** [-], [+] and [*] where an operand may be an infinity or [NaN]. *)
Definition jsNeg (n : JsNumber) : JsNumber :=
  match n with
  | Finite q => Finite (- q)
  | PosInfinity => NegInfinity
  | NegInfinity => PosInfinity
  | NaN => NaN
  end.

Definition jsAdd (a b : JsNumber) : JsNumber :=
  match a, b with
  | NaN, _ => NaN
  | _, NaN => NaN
  | Finite x, Finite y => Finite (x + y)
  | PosInfinity, NegInfinity => NaN
  | NegInfinity, PosInfinity => NaN
  | PosInfinity, _ => PosInfinity
  | _, PosInfinity => PosInfinity
  | NegInfinity, _ => NegInfinity
  | _, NegInfinity => NegInfinity
  end.

Definition jsSub (a b : JsNumber) : JsNumber := jsAdd a (jsNeg b).

(** An infinity times a finite number. *)
Definition jsScale (inf : JsNumber) (q : Q) : JsNumber :=
  match Qcompare q 0 with
  | Eq => NaN
  | Gt => inf
  | Lt => jsNeg inf
  end.

Definition jsMul (a b : JsNumber) : JsNumber :=
  match a, b with
  | NaN, _ => NaN
  | _, NaN => NaN
  | Finite x, Finite y => Finite (x * y)
  | Finite x, inf => jsScale inf x
  | inf, Finite y => jsScale inf y
  | PosInfinity, inf => inf
  | NegInfinity, inf => jsNeg inf
  end.


Definition jsPositive (a : JsNumber) : bool :=
  match a with
  | Finite q => negb (Qle_bool q 0)
  | PosInfinity => true
  | _ => false
  end.

(** *** [Number(string)]: the StringToNumber conversion

    Leading and trailing white space is dropped; the empty string is [0];
    the rest must be, in full, a signed decimal literal (with optional
    fraction and exponent), a signed [Infinity], or an unsigned [0x], [0o]
    or [0b] integer; anything else is [NaN].  Strings are byte strings: the
    white space recognised is the ASCII one. *)

Module StringToNumber.

Definition isWhiteSpace (c : ascii) : bool :=
  let n := nat_of_ascii c in
  ((9 <=? n) && (n <=? 13))%nat || (n =? 32)%nat.

Fixpoint trimStart (s : list ascii) : list ascii :=
  match s with
  | c :: s' => if isWhiteSpace c then trimStart s' else s
  | [] => []
  end.

Definition trim (s : list ascii) : list ascii :=
  rev (trimStart (rev (trimStart s))).

(** Value of a digit in the given radix, if it is one. *)
Definition digitOf (radix : Z) (c : ascii) : option Z :=
  let n := Z.of_nat (nat_of_ascii c) in
  let v :=
    if ((48 <=? n) && (n <=? 57))%Z then Some (n - 48)%Z
    else if ((97 <=? n) && (n <=? 102))%Z then Some (n - 87)%Z
    else if ((65 <=? n) && (n <=? 70))%Z then Some (n - 55)%Z
    else None in
  match v with
  | Some d => if (d <? radix)%Z then Some d else None
  | None => None
  end.

(** Longest prefix of digits: its value, its length, and the rest. *)
Fixpoint digits (radix : Z) (acc : Z) (len : nat) (s : list ascii)
  : Z * nat * list ascii :=
  match s with
  | c :: s' =>
      match digitOf radix c with
      | Some d => digits radix (radix * acc + d)%Z (S len) s'
      | None => (acc, len, s)
      end
  | [] => (acc, len, [])
  end.

Definition sign (s : list ascii) : bool * list ascii :=
  match s with
  | "+"%char :: s' => (false, s')
  | "-"%char :: s' => (true, s')
  | _ => (false, s)
  end.

Definition pow10 (e : Z) : Q :=
  if (0 <=? e)%Z then inject_Z (10 ^ e) else / inject_Z (10 ^ (- e)).

(** Magnitudes from [2^1024 - 2^970] on round to an infinity. *)
Definition overflowBound : Q := inject_Z (2 ^ 1024 - 2 ^ 970).

Definition ofMagnitude (negative : bool) (m : Q) : JsNumber :=
  if Qle_bool overflowBound m then
    if negative then NegInfinity else PosInfinity
  else Finite (Qred (if negative then - m else m)).

(** Optional exponent part; [None] when what follows is not one. *)
Definition exponent (s : list ascii) : option Z :=
  match s with
  | [] => Some 0%Z
  | c :: s' =>
      if (Ascii.eqb c "e" || Ascii.eqb c "E")%bool then
        let '(neg, s'') := sign s' in
        match digits 10 0 0 s'' with
        | (_, O, _) => None
        | (e, _, []) => Some (if neg then - e else e)%Z
        | _ => None
        end
      else None
  end.

Definition decimal (negative : bool) (s : list ascii) : JsNumber :=
  let '(ip, ilen, s1) := digits 10 0 0 s in
  let '(mant, flen, s2) :=
    match s1 with
    | "."%char :: s1' =>
        let '(m, len, s2) := digits 10 ip ilen s1' in
        (m, (len - ilen)%nat, s2)
    | _ => (ip, O, s1)
    end in
  match ilen, flen with
  | O, O => NaN
  | _, _ =>
      match exponent s2 with
      | Some e =>
          ofMagnitude negative
            (inject_Z mant * pow10 (e - Z.of_nat flen))
      | None => NaN
      end
  end.

Definition infinityLit : list ascii := list_ascii_of_string "Infinity".

Definition radixInteger (radix : Z) (s : list ascii) : JsNumber :=
  match digits radix 0 0 s with
  | (_, O, _) => NaN
  | (v, _, []) => ofMagnitude false (inject_Z v)
  | _ => NaN
  end.

Definition parse (s : list ascii) : JsNumber :=
  match trim s with
  | [] => Finite 0
  | "0"%char :: "x"%char :: t | "0"%char :: "X"%char :: t =>
      radixInteger 16 t
  | "0"%char :: "o"%char :: t | "0"%char :: "O"%char :: t =>
      radixInteger 8 t
  | "0"%char :: "b"%char :: t | "0"%char :: "B"%char :: t =>
      radixInteger 2 t
  | t =>
      let '(neg, u) := sign t in
      if list_eq_dec ascii_dec u infinityLit then
        if neg then NegInfinity else PosInfinity
      else decimal neg u
  end.

End StringToNumber.

Definition Number (s : string) : JsNumber :=
  StringToNumber.parse (list_ascii_of_string s).

(** [String(v).replace(/,/g, '')]. *)
Fixpoint removeCommas (s : string) : string :=
  match s with
  | EmptyString => EmptyString
  | String c s' =>
      if Ascii.eqb c ","%char then removeCommas s'
      else String c (removeCommas s')
  end.

(** [safeNumber]; a field the record does not have is [None]. *)
Definition safeNumber (v : option string) : Q :=
  match v with
  | None => 0
  | Some s =>
      let n := Number (removeCommas s) in
      match n with
      | Finite q => q
      | _ => 0
      end
  end.


(** ** Data model *)

(** One record of a parsed daily report.  [csv-parse] produces string
    fields; a column absent from the header leaves the field undefined. *)
Record Row : Type := mkRow {
  SYMBOL : string;
  SERIES : string;
  OPEN : option string;
  HIGH : option string;
  LOW : option string;
  CLOSE : option string;
  TOTTRDQTY : option string;
  TOTTRDVAL : option string
}.

Record Aggregated : Type := mkAggregated {
  symbol : string;
  sumVolume : Q;
  sumTradedValue : Q;
  sumMFVolume : Q;
  firstClose : option Q;
  lastClose : option Q;
  days : nat
}.

(** ** [Map<string, V>]

    A JavaScript [Map] iterates in insertion order, and [set] on a key that
    is present replaces the value where it stands: an association list
    with one binding per key. *)

Section JsMap.

Context {V : Type}.

Definition JsMap : Type := list (string * V).

Fixpoint map_get (k : string) (m : JsMap) : option V :=
  match m with
  | [] => None
  | (k', v) :: m' => if String.eqb k' k then Some v else map_get k m'
  end.

Fixpoint map_set (k : string) (v : V) (m : JsMap) : JsMap :=
  match m with
  | [] => [(k, v)]
  | (k', v') :: m' =>
      if String.eqb k' k then (k', v) :: m'
      else (k', v') :: map_set k v m'
  end.

Definition map_size (m : JsMap) : nat := List.length m.

Definition map_keys (m : JsMap) : list string := map fst m.

Definition map_values (m : JsMap) : list V := map snd m.

End JsMap.

Arguments JsMap V : clear implicits.

(** ** Session locator and fetcher *)

(** A calendar date is its day number (days since 1970-01-01, a Thursday);
    [subtract(1, 'day')] is [- 1] and [day()] is the weekday, Sunday [0]
    to Saturday [6]. *)
Definition Date : Type := Z.

Definition day (d : Date) : Z := ((d + 4) mod 7)%Z.

(** What retrieving and parsing one date's archive comes to.  The first
    four are the ways the body of the [try] leaves without a session. *)
Inductive FetchOutcome : Type :=
| FetchThrows                      (* network failure: [fetch] rejects *)
| ResponseNotOk                    (* [!res.ok]: the buffer is [null] *)
| UnzipThrows                      (* ['Empty ZIP'], or no archive at all *)
| ParseThrows                      (* [csv-parse] rejects the text *)
| Parsed (records : list Row).

Definition neededDays : nat := 5.
Definition maxLookback : nat := 12.

(** The per-date map: regular-equity rows keyed by symbol, last row wins. *)
Definition buildDayMap (records : list Row) : JsMap Row :=
  fold_left
    (fun map r =>
       if String.eqb (SERIES r) "EQ" then map_set (SYMBOL r) r map else map)
    records [].

(** The variables of the loop. *)
Record LocatorState : Type := mkLocatorState {
  cursor : Date;
  dailyMaps : list (JsMap Row)
}.

Section Locator.

(** The archive and the current date.  A run asks for a date at most once
    (the cursor only moves back), so a function of the date says what
    [fetchZipCsvBuffer], [unzipFirstCsv] and [parse] come to for it.  The
    run is taken to finish within the day it starts, so that
    [dayjs().diff(cursor, 'day')] is the number of days walked back. *)
Variable fetch : Date -> FetchOutcome.
Variable today : Date.

Definition diffDays (c : Date) : Z := (today - c)%Z.

(** The condition of the [while]. *)
Definition loopCondition (st : LocatorState) : bool :=
  (List.length (dailyMaps st) <? neededDays)%nat
  && (Z.of_nat (List.length (dailyMaps st)) + diffDays (cursor st)
      <=? Z.of_nat (neededDays + maxLookback))%Z.

Definition isWeekend (d : Date) : bool :=
  (day d =? 6)%Z || (day d =? 0)%Z.

(** One pass through the body of the [while]. *)
Definition loopBody (st : LocatorState) : LocatorState :=
  let cursor := (cursor st - 1)%Z in
  if isWeekend cursor then mkLocatorState cursor (dailyMaps st)
  else
    match fetch cursor with
    | Parsed records =>
        let map := buildDayMap records in
        if (0 <? map_size map)%nat
        then mkLocatorState cursor (dailyMaps st ++ [map])
        else mkLocatorState cursor (dailyMaps st)
    | _ => mkLocatorState cursor (dailyMaps st)
    end.

(** The [while] loop, with a bound on the number of passes. *)
Fixpoint locateLoop (fuel : nat) (st : LocatorState) : LocatorState :=
  match fuel with
  | O => st
  | S fuel' =>
      if loopCondition st then locateLoop fuel' (loopBody st) else st
  end.

Definition initialState : LocatorState := mkLocatorState today [].

(** Eighteen passes are all the condition ever allows: the loop then stops
    on its condition, and more passes give the same state
    ([locateLoop_exits], [locateLoop_more]). *)
Definition locate : LocatorState := locateLoop 18 initialState.

End Locator.

(** ** Money-flow aggregator *)

(** The money flow multiplier of one row, [range === 0 ? 0 : ... / range]. *)
Definition mfm (high low close : Q) : Q :=
  let range := high - low in
  if Qeq_bool range 0 then 0 else ((close - low) - (high - close)) / range.

(** [volume <= 0 || high <= 0 || low <= 0]: the row is passed over. *)
Definition discarded (volume high low : Q) : bool :=
  Qle_bool volume 0 || Qle_bool high 0 || Qle_bool low 0.

(** The accumulator a symbol starts from. *)
Definition freshAggregated (sym : string) : Aggregated :=
  mkAggregated sym 0 0 0 None None 0.

(** The body of the inner [for], on one entry of a day's map. *)
Definition foldRow (agg : JsMap Aggregated) (entry : string * Row)
  : JsMap Aggregated :=
  let '(sym, r) := entry in
  let high := safeNumber (HIGH r) in
  let low := safeNumber (LOW r) in
  let close := safeNumber (CLOSE r) in
  let volume := safeNumber (TOTTRDQTY r) in
  let tradedValue := safeNumber (TOTTRDVAL r) in
  if discarded volume high low then agg
  else
    let mfv := mfm high low close * volume in
    let a :=
      match map_get sym agg with
      | Some a => a
      | None => freshAggregated sym
      end in
    let a :=
      mkAggregated (symbol a)
        (sumVolume a + volume)
        (sumTradedValue a + tradedValue)
        (sumMFVolume a + mfv)
        (match firstClose a with None => Some close | Some c => Some c end)
        (Some close)
        (days a + 1) in
    map_set sym a agg.

Definition foldDay (agg : JsMap Aggregated) (dayMap : JsMap Row)
  : JsMap Aggregated :=
  fold_left foldRow dayMap agg.

(** The outer [for], over the days in chronological order. *)
Definition foldDays (agg : JsMap Aggregated) (chronological : list (JsMap Row))
  : JsMap Aggregated :=
  fold_left foldDay chronological agg.

(** [[...dailyMaps].reverse()], then the fold from the empty map. *)
Definition aggregate (dailyMaps : list (JsMap Row)) : JsMap Aggregated :=
  let chronological := rev dailyMaps in
  foldDays [] chronological.

(** ** Ranker *)

Module StockRow.
Record t : Type := mk {
  symbol : string;
  cmf : Q;
  totalTradedValue : Q;
  totalVolume : Q;
  daysCount : nat;
  priceChange5dPercent : Q
}.
End StockRow.

(** [Math.max(3, Math.min(5, dailyMaps.length))]. *)
Definition coverageFloor (sessions : nat) : nat :=
  Nat.max 3 (Nat.min 5 sessions).

Definition qualifies (sessions : nat) (a : Aggregated) : bool :=
  (coverageFloor sessions <=? days a)%nat.

(** A number used as a condition: zero is false. *)
Definition truthy (q : Q) : bool := negb (Qeq_bool q 0).

Definition cmfOf (a : Aggregated) : Q :=
  if Qeq_bool (sumVolume a) 0 then 0 else sumMFVolume a / sumVolume a.

Definition priceChangeOf (a : Aggregated) : Q :=
  match firstClose a, lastClose a with
  | Some f, Some l =>
      if truthy f && truthy l && negb (Qle_bool f 0)
      then ((l - f) / f) * 100
      else 0
  | _, _ => 0
  end.

Definition toStockRow (a : Aggregated) : StockRow.t :=
  StockRow.mk (symbol a) (cmfOf a) (sumTradedValue a) (sumVolume a) (days a)
    (priceChangeOf a).

(** [Array.from(agg.values()).filter(...).map(...)]. *)
Definition results (sessions : nat) (agg : JsMap Aggregated)
  : list StockRow.t :=
  map toStockRow (filter (qualifies sessions) (map_values agg)).

Section Ranker.

(** The values of [Math.log10] on positive arguments. *)
Variable log10 : Q -> Q.

(** [Math.log10]: [NaN] below zero and minus infinity at zero. *)
Definition mathLog10 (x : Q) : JsNumber :=
  match Qcompare x 0 with
  | Lt => NaN
  | Eq => NegInfinity
  | Gt => Finite (log10 x)
  end.

Definition score (x : StockRow.t) : JsNumber :=
  let liq := mathLog10 (1 + StockRow.totalTradedValue x) in
  jsMul (Finite (StockRow.cmf x))
    (jsAdd (Finite 1) (jsMul (Finite (15 # 100)) liq)).

(** The comparator handed to [sort]. *)
Definition compareFn (x y : StockRow.t) : JsNumber :=
  jsSub (score y) (score x).

(** [Array.prototype.sort] is stable and orders by the sign of the
    comparator, a [NaN] result counting as zero; it is modelled as the
    stable insertion sort, in which [x] goes behind [y] exactly when the
    comparator is positive on [(x, y)].  When the comparator is not a
    consistent order (some score is [NaN]) the language leaves the order to
    the implementation; the insertion sort then leaves a row in front of
    the first row it is not found to go behind. *)
Fixpoint sortInsert (x : StockRow.t) (l : list StockRow.t)
  : list StockRow.t :=
  match l with
  | [] => [x]
  | y :: l' =>
      if jsPositive (compareFn x y) then y :: sortInsert x l'
      else x :: l
  end.

Definition sort (l : list StockRow.t) : list StockRow.t :=
  fold_right sortInsert [] l.

(** [results.sort(...)] then [results.slice(0, 10)]. *)
Definition topStocks (sessions : nat) (agg : JsMap Aggregated)
  : list StockRow.t :=
  firstn 10 (sort (results sessions agg)).

End Ranker.

(** ** The handler *)

Inductive Body : Type :=
| ErrorBody (error : string)
| AnalysisBody (daysAnalyzed : nat) (topStocks : list StockRow.t).

Record Response : Type := mkResponse {
  status : nat;
  body : Body
}.

(** [POST].  Nothing the model executes outside the inner [try] throws, so
    the outer [catch] (status 500) has no counterpart here. *)
Definition POST (log10 : Q -> Q) (fetch : Date -> FetchOutcome) (today : Date)
  : Response :=
  let dailyMaps := dailyMaps (locate fetch today) in
  if (List.length dailyMaps =? 0)%nat then
    mkResponse 502
      (ErrorBody "No recent trading days found in NSE archives.")
  else
    let agg := aggregate dailyMaps in
    mkResponse 200
      (AnalysisBody (List.length dailyMaps)
         (topStocks log10 (List.length dailyMaps) agg)).

(** ** The archive of a date: [buildArchiveUrl]

    [dayjs] formats the local calendar date of the cursor.  The date of a
    day number is its date in the Gregorian calendar; [format] is modelled
    on the three format strings the handler uses, token by token: [YYYY] is
    the year padded to four digits, [MMM] the first three letters of the
    English month name, [DD] the day of the month padded to two digits. *)

(** Year, month (1 to 12) and day of the month of a day of the 400-year
    cycle that starts on 1 March of year [400 * era]. *)
Definition civilOfCycleDay (era doe : Z) : Z * Z * Z :=
  let yoe := ((doe - doe / 1460 + doe / 36524 - doe / 146096) / 365)%Z in
  let doy := (doe - (365 * yoe + yoe / 4 - yoe / 100))%Z in
  let mp := ((5 * doy + 2) / 153)%Z in
  let dd := (doy - (153 * mp + 2) / 5 + 1)%Z in
  let m := (if mp <? 10 then mp + 3 else mp - 9)%Z in
  let y := (yoe + era * 400)%Z in
  ((if m <=? 2 then y + 1 else y)%Z, m, dd).

Definition civil (d : Date) : Z * Z * Z :=
  let z := (d + 719468)%Z in
  civilOfCycleDay (z / 146097) (z mod 146097).

Definition yearOf (d : Date) : Z := fst (fst (civil d)).
Definition monthOf (d : Date) : Z := snd (fst (civil d)).
Definition dateOf (d : Date) : Z := snd (civil d).

(** [String(n)] for an integer. *)
Definition decimal (n : Z) : string :=
  if (n <? 0)%Z
  then "-" ++ NilZero.string_of_uint (N.to_uint (Z.to_N (- n)))
  else NilZero.string_of_uint (N.to_uint (Z.to_N n)).

Fixpoint repeatChar (c : ascii) (n : nat) : string :=
  match n with
  | O => EmptyString
  | S n' => String c (repeatChar c n')
  end.

(** [padStart]: the string, with the pad in front when it is shorter. *)
Definition padStart (n : nat) (c : ascii) (s : string) : string :=
  repeatChar c (n - String.length s) ++ s.

Definition monthNames : list string :=
  ["January"; "February"; "March"; "April"; "May"; "June"; "July";
   "August"; "September"; "October"; "November"; "December"]%string.

Definition formatYYYY (d : Date) : string :=
  padStart 4 "0" (decimal (yearOf d)).

Definition formatMMM (d : Date) : string :=
  substring 0 3 (nth (Z.to_nat (monthOf d - 1)) monthNames ""%string).

Definition formatDD (d : Date) : string :=
  padStart 2 "0" (decimal (dateOf d)).

Definition formatDDMMMYYYY (d : Date) : string :=
  formatDD d ++ formatMMM d ++ formatYYYY d.

(** [toUpperCase], on the letters of ASCII. *)
Definition upperChar (c : ascii) : ascii :=
  let n := nat_of_ascii c in
  if ((97 <=? n) && (n <=? 122))%nat then ascii_of_nat (n - 32) else c.

Fixpoint toUpperCase (s : string) : string :=
  match s with
  | EmptyString => EmptyString
  | String c s' => String (upperChar c) (toUpperCase s')
  end.

Definition archiveRoot : string :=
  "https://archives.nseindia.com/content/historical/EQUITIES/".

Definition buildArchiveUrl (d : Date) : string :=
  let yyyy := formatYYYY d in
  let mmm := toUpperCase (formatMMM d) in
  let ddmmmYYYY := toUpperCase (formatDDMMMYYYY d) in
  archiveRoot ++ yyyy ++ "/" ++ mmm ++ "/cm" ++ ddmmmYYYY ++ "bhav.csv.zip".

(** ** The fetcher: [fetchZipCsvBuffer], [unzipFirstCsv] and the parse

    The network, the archive reader and the CSV parser are parameters.  A
    call either returns or throws; in [async] code that is a promise that
    fulfils or rejects. *)

Inductive Completion (A : Type) : Type :=
| Returns (a : A)
| Throws (message : string).

Arguments Returns {A} a.
Arguments Throws {A} message.

(** A response: [res.ok], and what [res.arrayBuffer()] comes to. *)
Record HttpResponse : Type := mkHttpResponse {
  ok : bool;
  arrayBuffer : Completion (list Byte.byte)
}.

Definition requestHeaders : list (string * string) :=
  [("user-agent",
    "Mozilla/5.0 (X11; Linux x86_64) AppleWebKit/537.36 (KHTML, like Gecko) Chrome/121 Safari/537.36");
   ("accept", "application/zip,application/octet-stream,*/*");
   ("referer", "https://www.nseindia.com/");
   ("cache-control", "no-cache")]%string.

(** [Object.values(obj)] lists the values of an object in the order of
    its own property keys: first the keys that are array indices, in
    ascending numeric order, then the other keys in the order in which
    they were created.  An object is given by its entries in order of
    creation, one per key. *)
Definition digitOf (c : ascii) : option N :=
  let n := N_of_ascii c in
  if ((48 <=? n) && (n <=? 57))%N then Some (n - 48)%N else None.

Fixpoint decimalValue (acc : N) (cs : list ascii) : option N :=
  match cs with
  | [] => Some acc
  | c :: cs' =>
      match digitOf c with
      | Some dgt => decimalValue (10 * acc + dgt)%N cs'
      | None => None
      end
  end.

(** The key is an array index: the decimal text, with no sign and no
    leading zero, of an integer from 0 to 2^32 - 2. *)
Definition arrayIndex (key : string) : option N :=
  match list_ascii_of_string key with
  | [] => None
  | c :: cs =>
      if Ascii.eqb c "0" && negb (match cs with [] => true | _ => false end)
      then None
      else
        match decimalValue 0 (c :: cs) with
        | Some v => if (v <=? 4294967294)%N then Some v else None
        | None => None
        end
  end.

Fixpoint insertByIndex {V : Type} (i : N) (v : V) (l : list (N * V))
  : list (N * V) :=
  match l with
  | [] => [(i, v)]
  | (j, w) :: l' =>
      if (i <? j)%N then (i, v) :: l else (j, w) :: insertByIndex i v l'
  end.

Fixpoint indexEntries {V : Type} (entries : list (string * V))
  : list (N * V) :=
  match entries with
  | [] => []
  | (k, v) :: rest =>
      match arrayIndex k with
      | Some i => insertByIndex i v (indexEntries rest)
      | None => indexEntries rest
      end
  end.

Definition namedEntries {V : Type} (entries : list (string * V))
  : list (string * V) :=
  filter (fun e => match arrayIndex (fst e) with
                   | Some _ => false
                   | None => true
                   end) entries.

Definition objectValues {V : Type} (entries : list (string * V)) : list V :=
  map snd (indexEntries entries) ++ map snd (namedEntries entries).

(** [JSZip.loadAsync(buf)] followed by [Object.values(zip.files)], where
    [loadAsync] gives the entries of [zip.files], keyed by member name, in
    the order of the archive, each with what its [async('string')] comes
    to. *)
Definition zipFileValues
  (loadAsync : list Byte.byte -> Completion (list (string * Completion string)))
  (buf : list Byte.byte) : Completion (list (Completion string)) :=
  match loadAsync buf with
  | Throws message => Throws message
  | Returns files => Returns (objectValues files)
  end.

Section Fetcher.

(** [fetch(url, { headers })]. *)
Variable httpFetch : string -> list (string * string) -> Completion HttpResponse.

(** [JSZip.loadAsync(buf)] followed by [Object.values(zip.files)]: the
    members in the order of [Object.values], which is the order of the
    archive when no member name is an array index (see [zipFileValues]),
    each with what its [async('string')] comes to. *)
Variable loadZip : list Byte.byte -> Completion (list (Completion string)).

(** [parse(csvText, { columns: true, skip_empty_lines: true })]. *)
Variable csvParse : string -> Completion (list Row).

Definition fetchZipCsvBuffer (url : string)
  : Completion (option (list Byte.byte)) :=
  match httpFetch url requestHeaders with
  | Throws message => Throws message
  | Returns res =>
      if negb (ok res) then Returns None
      else
        match arrayBuffer res with
        | Throws message => Throws message
        | Returns arr => Returns (Some arr)
        end
  end.

Definition unzipFirstCsv (buf : list Byte.byte) : Completion string :=
  match loadZip buf with
  | Throws message => Throws message
  | Returns files =>
      match files with
      | [] => Throws "Empty ZIP"
      | firstFile :: _ => firstFile
      end
  end.

(** The body of the inner [try] up to the parsed records, for the date the
    cursor stands on. *)
Definition fetchDate (d : Date) : FetchOutcome :=
  let url := buildArchiveUrl d in
  match fetchZipCsvBuffer url with
  | Throws _ => FetchThrows
  | Returns None => ResponseNotOk
  | Returns (Some buf) =>
      match unzipFirstCsv buf with
      | Throws _ => UnzipThrows
      | Returns csvText =>
          match csvParse csvText with
          | Throws _ => ParseThrows
          | Returns records => Parsed records
          end
      end
  end.

End Fetcher.

(** ** The page: [runAnalysis] *)

Record PageState : Type := mkPageState {
  loading : bool;
  rows : option (list StockRow.t);
  error : option string
}.

(** What [fetch('/api/analyze', { method: 'POST' })] comes to: a rejection,
    or a response with its status and what [res.json()] comes to. *)
Inductive ApiReply : Type :=
| FetchRejects (message : string)
| Replies (status : nat) (json : Completion Body).

(** [res.ok]: the status is in the range 200 to 299. *)
Definition replyOk (status : nat) : bool :=
  ((200 <=? status) && (status <=? 299))%nat.

(** [data.topStocks]; an error body has none, and [setRows(undefined)]
    shows no table, like [null]. *)
Definition topStocksOf (data : Body) : option (list StockRow.t) :=
  match data with
  | AnalysisBody _ top => Some top
  | ErrorBody _ => None
  end.

(** [e?.message || 'Failed']. *)
Definition messageOrFailed (message : string) : string :=
  if String.eqb message "" then "Failed" else message.

(** The state while the request is under way: the three updates before
    the [await]. *)
Definition runAnalysisStart (s : PageState) : PageState :=
  let s := mkPageState true (rows s) (error s) in
  let s := mkPageState (loading s) (rows s) None in
  mkPageState (loading s) None (error s).

(** What the body of the [try] comes to. *)
Definition requestRows (reply : ApiReply)
  : Completion (option (list StockRow.t)) :=
  match reply with
  | FetchRejects message => Throws message
  | Replies status json =>
      if negb (replyOk status)
      then Throws ("Request failed: " ++ decimal (Z.of_nat status))
      else
        match json with
        | Throws message => Throws message
        | Returns data => Returns (topStocksOf data)
        end
  end.

(** The state once [runAnalysis] has finished. *)
Definition runAnalysis (reply : ApiReply) (s : PageState) : PageState :=
  let s := runAnalysisStart s in
  let s :=
    match requestRows reply with
    | Returns top => mkPageState (loading s) top (error s)
    | Throws message =>
        mkPageState (loading s) (rows s) (Some (messageOrFailed message))
    end in
  mkPageState false (rows s) (error s).

(** The reply of the handler, as the page receives it. *)
Definition replyOf (r : Response) : ApiReply :=
  Replies (status r) (Returns (body r)).

(** * Vocabulary of the statements *)

(** ** Locator *)

(** The session a date yields, if any: a weekday whose archive parses to
    at least one regular-equity row. *)
Definition sessionAt (fetch : Date -> FetchOutcome) (d : Date)
  : option (JsMap Row) :=
  if isWeekend d then None
  else
    match fetch d with
    | Parsed records =>
        let map := buildDayMap records in
        if (0 <? map_size map)%nat then Some map else None
    | _ => None
    end.

(** The sessions of a list of dates, in the order of the list. *)
Definition sessionsOf (fetch : Date -> FetchOutcome) (dates : list Date)
  : list (JsMap Row) :=
  flat_map
    (fun d => match sessionAt fetch d with Some m => [m] | None => [] end)
    dates.

(** The [n] dates before [c], most recent first. *)
Definition datesBack (c : Date) (n : nat) : list Date :=
  map (fun i => (c - Z.of_nat i)%Z) (seq 1 n).

(** What the loop condition compares with [neededDays + maxLookback]. *)
Definition budgetUsed (today : Date) (st : LocatorState) : Z :=
  (Z.of_nat (List.length (dailyMaps st)) + diffDays today (cursor st))%Z.

(** The ways a date's retrieval fails. *)
Definition isFailure (o : FetchOutcome) : bool :=
  match o with
  | Parsed _ => false
  | _ => true
  end.

Definition noSessionsMessage : string :=
  "No recent trading days found in NSE archives.".

(** ** Aggregator *)

(** The row gets past the positivity check of the aggregator. *)
Definition contributes (r : Row) : bool :=
  negb (discarded (safeNumber (TOTTRDQTY r)) (safeNumber (HIGH r))
          (safeNumber (LOW r))).

(** Sessions with at least one row that gets past the positivity check. *)
Definition contributingSessions (dailyMaps : list (JsMap Row)) : nat :=
  List.length (filter (fun m => existsb contributes (map_values m)) dailyMaps).

(** The accumulator after a row that gets past the check. *)
Definition contribute (r : Row) (a : Aggregated) : Aggregated :=
  let high := safeNumber (HIGH r) in
  let low := safeNumber (LOW r) in
  let close := safeNumber (CLOSE r) in
  let volume := safeNumber (TOTTRDQTY r) in
  let tradedValue := safeNumber (TOTTRDVAL r) in
  mkAggregated (symbol a)
    (sumVolume a + volume)
    (sumTradedValue a + tradedValue)
    (sumMFVolume a + mfm high low close * volume)
    (match firstClose a with None => Some close | Some c => Some c end)
    (Some close)
    (days a + 1).

(** What one session does to the accumulator of one symbol. *)
Definition stepSymbol (sym : string) (acc : option Aggregated)
  (dayMap : JsMap Row) : option Aggregated :=
  match map_get sym dayMap with
  | Some r =>
      if contributes r then
        Some (contribute r
                (match acc with Some a => a | None => freshAggregated sym end))
      else acc
  | None => acc
  end.

(** The rows of one symbol that get past the check, session by session. *)
Definition contributionsOf (sym : string) (sessions : list (JsMap Row))
  : list Row :=
  flat_map
    (fun dayMap =>
       match map_get sym dayMap with
       | Some r => if contributes r then [r] else []
       | None => []
       end)
    sessions.

Definition closeOf (r : Row) : Q := safeNumber (CLOSE r).

(** The accumulator [acc] of a symbol is the one its contributing rows
    [rows], oldest first, lead to. *)
Definition tracks (rows : list Row) (acc : option Aggregated) : Prop :=
  match acc with
  | None => rows = []
  | Some a =>
      rows <> [] /\
      firstClose a = option_map closeOf (hd_error rows) /\
      lastClose a = option_map closeOf (hd_error (rev rows)) /\
      days a = List.length rows
  end.

(** One accumulator per symbol, filed under its own symbol. *)
Definition keyed (agg : JsMap Aggregated) : Prop :=
  NoDup (map_keys agg) /\ Forall (fun e => symbol (snd e) = fst e) agg.

(** The close of the row lies between its low and its high. *)
Definition closeInRange (r : Row) : Prop :=
  safeNumber (LOW r) <= safeNumber (CLOSE r) <= safeNumber (HIGH r).

(** The money-flow volume of the accumulator is within its volume. *)
Definition flowWithinVolume (a : Aggregated) : Prop :=
  0 <= sumVolume a /\
  - sumVolume a <= sumMFVolume a <= sumVolume a.

(** ** Ranker *)




(** ** Archives and rows of the examples *)

(** A regular-equity row with the given high, low, close, traded quantity
    and traded value, for the examples. *)
Definition eqRow (sym high low close qty val : string) : Row :=
  mkRow sym "EQ" None (Some high) (Some low) (Some close) (Some qty)
    (Some val).

(** The archive that has the given reports and nothing else. *)
Fixpoint archiveOf (reports : list (Date * list Row)) (d : Date)
  : FetchOutcome :=
  match reports with
  | [] => ResponseNotOk
  | (d', records) :: rest =>
      if (d =? d')%Z then Parsed records else archiveOf rest d
  end.

(** The two-session scenario of the specification: ABC on Thursday
    1970-01-01 and on Friday 1970-01-02, the run made on the Saturday. *)
Definition scenarioArchive : Date -> FetchOutcome :=
  archiveOf
    [(0%Z, [eqRow "ABC" "110" "90" "105" "1000" "105000"]);
     (1%Z, [eqRow "ABC" "120" "100" "118" "2000" "236000"])].

Definition scenarioToday : Date := 2%Z.

Definition scenarioABC : Aggregated :=
  mkAggregated "ABC" 3000 341000 (840000 # 400) (Some 105) (Some 118) 2.

Definition scenarioDay1 : JsMap Row :=
  buildDayMap [eqRow "ABC" "110" "90" "105" "1000" "105000"].

Definition scenarioDay2 : JsMap Row :=
  buildDayMap [eqRow "ABC" "120" "100" "118" "2000" "236000"].

(** ABC after the first session of the scenario alone. *)
Definition scenarioABC1 : Aggregated :=
  Eval vm_compute in
    match map_get "ABC" (foldDays [] [scenarioDay1]) with
    | Some a => a
    | None => freshAggregated "ABC"
    end.

(** Three sessions, Wednesday 1969-12-31 to Friday 1970-01-02, the run made
    on the Saturday: ABC trades on all three days, XYZ on two. *)
Definition coverageArchive : Date -> FetchOutcome :=
  archiveOf
    [((-1)%Z, [eqRow "ABC" "100" "80" "95" "500" "47500";
               eqRow "XYZ" "50" "40" "49" "900" "44100"]);
     (0%Z, [eqRow "ABC" "110" "90" "105" "1000" "105000"]);
     (1%Z, [eqRow "ABC" "120" "100" "118" "2000" "236000";
            eqRow "XYZ" "60" "50" "59" "900" "53100"])].

Definition coverageABC : StockRow.t :=
  Eval vm_compute in
    match map_get "ABC" (aggregate (dailyMaps (locate coverageArchive 2%Z))) with
    | Some a => toStockRow a
    | None => toStockRow (freshAggregated "ABC")
    end.

(** Three reports in which the close of ABC is left blank. *)
Definition blankCloseArchive : Date -> FetchOutcome :=
  archiveOf
    [((-1)%Z, [eqRow "ABC" "110" "90" "" "1000" "100000"]);
     (0%Z, [eqRow "ABC" "110" "90" "" "1000" "100000"]);
     (1%Z, [eqRow "ABC" "110" "90" "" "1000" "100000"])].





(** ** Further vocabulary *)

(** The row is a regular-equity row of the symbol. *)
Definition eqRowOf (sym : string) (r : Row) : bool :=
  String.eqb (SERIES r) "EQ" && String.eqb (SYMBOL r) sym.

(** The fields of a row as the aggregator reads them. *)
Definition volumeOf (r : Row) : Q := safeNumber (TOTTRDQTY r).
Definition tradedValueOf (r : Row) : Q := safeNumber (TOTTRDVAL r).
Definition mfvOf (r : Row) : Q :=
  mfm (safeNumber (HIGH r)) (safeNumber (LOW r)) (safeNumber (CLOSE r))
  * safeNumber (TOTTRDQTY r).

(** The sum the aggregator keeps of a field: from 0, the term of each row
    added to the sum so far, oldest row first. *)
Definition runningSum (f : Row -> Q) (rows : list Row) : Q :=
  fold_left (fun acc r => acc + f r) rows 0.

(** The state of the locator after [n] passes from the start. *)
Definition stateAfter (fetch : Date -> FetchOutcome) (today : Date) (n : nat)
  : LocatorState :=
  mkLocatorState (today - Z.of_nat n)%Z
    (sessionsOf fetch (datesBack today n)).

(** The sums of the accumulator [acc] of a symbol are the running sums
    over its contributing rows [rows], oldest first. *)
Definition totals (sym : string) (rows : list Row) (acc : option Aggregated)
  : Prop :=
  match acc with
  | None => rows = []
  | Some a =>
      symbol a = sym /\
      sumVolume a = runningSum volumeOf rows /\
      sumTradedValue a = runningSum tradedValueOf rows /\
      sumMFVolume a = runningSum mfvOf rows
  end.

(** The day number of a calendar date. *)
Definition daysFromCivil (y m dd : Z) : Z :=
  let y := (if m <=? 2 then y - 1 else y)%Z in
  let era := (y / 400)%Z in
  let yoe := (y - era * 400)%Z in
  let mp := (if 2 <? m then m - 3 else m + 9)%Z in
  let doy := ((153 * mp + 2) / 5 + dd - 1)%Z in
  let doe := (yoe * 365 + yoe / 4 - yoe / 100 + doy)%Z in
  (era * 146097 + doe - 719468)%Z.

(** The [n] integers from [start] on. *)
Fixpoint zrange (n : nat) (start : Z) : list Z :=
  match n with
  | O => []
  | S n' => start :: zrange n' (start + 1)%Z
  end.

(** The date of a day of the cycle is a date of the calendar, and the day
    number of that date is the day. *)
Definition cycleDayOk (doe : Z) : bool :=
  let '(y, m, dd) := civilOfCycleDay 0 doe in
  ((daysFromCivil y m dd =? doe - 719468)
   && (1 <=? m) && (m <=? 12) && (1 <=? dd) && (dd <=? 31))%Z.

(** The number a string of decimal digits denotes. *)
Definition digitsValue (s : string) : Z :=
  fst (fst (StringToNumber.digits 10 0 0 (list_ascii_of_string s))).

Definition yearText (y : Z) : string := padStart 4 "0" (decimal y).
Definition dayText (dd : Z) : string :=
  toUpperCase (padStart 2 "0" (decimal dd)).
Definition monthText (m : Z) : string :=
  toUpperCase (substring 0 3 (nth (Z.to_nat (m - 1)) monthNames ""%string)).

(** The month a three-letter text names, 0 when it names none. *)
Definition monthOfText (s : string) : Z :=
  match find (fun m => String.eqb (monthText m) s) (zrange 12 1) with
  | Some m => m
  | None => 0%Z
  end.

(** A network that is down, and one that would answer for the archive of
    Saturday 1970-01-03 alone. *)
Definition offline
  : string -> list (string * string) -> Completion HttpResponse :=
  fun _ _ => Throws "offline".

Definition onlyToday
  : string -> list (string * string) -> Completion HttpResponse :=
  fun url _ =>
    if String.eqb url (buildArchiveUrl 2%Z)
    then Returns (mkHttpResponse true (Returns []))
    else Throws "offline".

(** An archive whose first member is the report and whose second member
    is named [1]; a network that answers every request with it; a parser
    that reads the text [report] as one row of ABC. *)
Definition twoMemberArchive : list (string * Completion string) :=
  [("cm01JAN1970bhav.csv", Returns "report"); ("1", Returns "other")]%string.

Definition alwaysOk
  : string -> list (string * string) -> Completion HttpResponse :=
  fun _ _ => Returns (mkHttpResponse true (Returns [])).

Definition parseReport (csvText : string) : Completion (list Row) :=
  if String.eqb csvText "report"
  then Returns [eqRow "ABC" "110" "90" "105" "1000" "105000"]
  else Returns [].

(** * Properties *)

(** ** Lists *)

Lemma firstn_In {A : Type} (n : nat) (l : list A) (x : A) :
  In x (firstn n l) -> In x l.
Proof.
  revert l. induction n as [|n IH]; intros [|y l]; simpl; try tauto.
  intros [H|H]; auto.
Qed.


(** ** Maps *)

Section JsMapFacts.

Context {V : Type}.
Implicit Types (m : JsMap V) (k : string) (v : V).

Lemma map_get_set_same k v m : map_get k (map_set k v m) = Some v.
Proof.
  induction m as [|[k' v'] m IH]; simpl.
  - now rewrite String.eqb_refl.
  - destruct (String.eqb k' k) eqn:E; simpl; now rewrite E.
Qed.

Lemma map_get_set_other k k' v m :
  k <> k' -> map_get k' (map_set k v m) = map_get k' m.
Proof.
  intros Hne. induction m as [|[k0 v0] m IH]; simpl.
  - destruct (String.eqb k k') eqn:E; [|reflexivity].
    apply String.eqb_eq in E. contradiction.
  - destruct (String.eqb k0 k) eqn:E; simpl.
    + apply String.eqb_eq in E. subst k0.
      destruct (String.eqb k k') eqn:E'; [|reflexivity].
      apply String.eqb_eq in E'. contradiction.
    + now rewrite IH.
Qed.

Lemma map_get_In k v m : map_get k m = Some v -> In (k, v) m.
Proof.
  induction m as [|[k' v'] m IH]; simpl; [discriminate|].
  destruct (String.eqb k' k) eqn:E.
  - apply String.eqb_eq in E. intros Hv. injection Hv as Hv. subst. now left.
  - auto.
Qed.

Lemma map_get_None k m : map_get k m = None <-> ~ In k (map_keys m).
Proof.
  induction m as [|[k' v'] m IH]; simpl; [tauto|].
  destruct (String.eqb k' k) eqn:E.
  - apply String.eqb_eq in E. split; [discriminate|]. tauto.
  - apply String.eqb_neq in E. rewrite IH. tauto.
Qed.

Lemma In_map_get k v m :
  NoDup (map_keys m) -> In (k, v) m -> map_get k m = Some v.
Proof.
  induction m as [|[k' v'] m IH]; simpl; [tauto|].
  intros Hnd [Heq|Hin]; inversion Hnd as [|? ? Hnotin Hnd']; subst.
  - injection Heq as -> ->. now rewrite String.eqb_refl.
  - destruct (String.eqb k' k) eqn:E; [|auto].
    apply String.eqb_eq in E. subst k'. exfalso. apply Hnotin.
    change k with (fst (k, v)). now apply in_map.
Qed.

(** [set] keeps the keys where they are and adds a new one at the end. *)
Lemma map_keys_set k v m :
  map_keys (map_set k v m) =
  if in_dec string_dec k (map_keys m) then map_keys m
  else map_keys m ++ [k].
Proof.
  induction m as [|[k' v'] m IH]; simpl; [reflexivity|].
  destruct (String.eqb k' k) eqn:E.
  - apply String.eqb_eq in E. subst k'.
    destruct (string_dec k k) as [Heq|Hne]; [reflexivity|contradiction].
  - apply String.eqb_neq in E. simpl. rewrite IH.
    destruct (string_dec k' k) as [Heq|Hne]; [contradiction|].
    now destruct (in_dec string_dec k (map_keys m)).
Qed.

Lemma map_set_NoDup k v m :
  NoDup (map_keys m) -> NoDup (map_keys (map_set k v m)).
Proof.
  intros Hnd. rewrite map_keys_set.
  destruct (in_dec string_dec k (map_keys m)) as [|Hnotin]; [assumption|].
  apply NoDup_app; [assumption|apply NoDup_cons; [tauto|constructor]|].
  intros x Hx [<-|[]]. contradiction.
Qed.

(** The values after a [set] are the value set and values there before. *)
Lemma map_set_In k v m k' v' :
  In (k', v') (map_set k v m) -> (k', v') = (k, v) \/ In (k', v') m.
Proof.
  induction m as [|[k0 v0] m IH]; simpl.
  - intros [H|[]]. now left.
  - destruct (String.eqb k0 k) eqn:E; simpl.
    + apply String.eqb_eq in E. subst k0. intros [H|H]; auto.
    + intros [H|H]; auto. destruct (IH H); auto.
Qed.

End JsMapFacts.

(** ** Session locator *)

Lemma datesBack_S (c : Date) (n : nat) :
  datesBack c (S n) = (c - 1)%Z :: datesBack (c - 1)%Z n.
Proof.
  unfold datesBack. cbn [seq map]. f_equal.
  rewrite <- seq_shift, map_map. apply map_ext. intros i. lia.
Qed.

Lemma datesBack_In (c : Date) (n : nat) (d : Date) :
  In d (datesBack c n) <-> (c - Z.of_nat n <= d < c)%Z.
Proof.
  unfold datesBack. rewrite in_map_iff. split.
  - intros (i & <- & Hi). apply in_seq in Hi. lia.
  - intros Hd. exists (Z.to_nat (c - d)). split; [lia|]. apply in_seq. lia.
Qed.

Section LocatorFacts.

Variable fetch : Date -> FetchOutcome.
Variable today : Date.

Lemma loopBody_sessionAt st :
  loopBody fetch st =
  match sessionAt fetch (cursor st - 1)%Z with
  | Some m => mkLocatorState (cursor st - 1)%Z (dailyMaps st ++ [m])
  | None => mkLocatorState (cursor st - 1)%Z (dailyMaps st)
  end.
Proof.
  unfold loopBody, sessionAt. simpl.
  destruct (isWeekend (cursor st - 1)%Z); [reflexivity|].
  destruct (fetch (cursor st - 1)%Z); try reflexivity.
  now destruct (0 <? map_size (buildDayMap records))%nat.
Qed.

Lemma loopBody_cursor st : cursor (loopBody fetch st) = (cursor st - 1)%Z.
Proof.
  rewrite loopBody_sessionAt. simpl.
  now destruct (sessionAt fetch (cursor st - 1)%Z).
Qed.

Lemma loopBody_length st :
  (List.length (dailyMaps st) <= List.length (dailyMaps (loopBody fetch st))
   <= S (List.length (dailyMaps st)))%nat.
Proof.
  rewrite loopBody_sessionAt. simpl.
  destruct (sessionAt fetch (cursor st - 1)%Z); simpl;
    [rewrite length_app; simpl|]; lia.
Qed.

Lemma loopCondition_true st :
  loopCondition today st = true ->
  (List.length (dailyMaps st) < 5)%nat /\
  (Z.of_nat (List.length (dailyMaps st)) + (today - cursor st) <= 17)%Z.
Proof.
  unfold loopCondition, diffDays, neededDays, maxLookback.
  rewrite andb_true_iff, Nat.ltb_lt, Z.leb_le. simpl. tauto.
Qed.

Lemma loopCondition_false st :
  loopCondition today st = false ->
  (5 <= List.length (dailyMaps st))%nat \/
  (17 < Z.of_nat (List.length (dailyMaps st)) + (today - cursor st))%Z.
Proof.
  unfold loopCondition, diffDays, neededDays, maxLookback.
  rewrite andb_false_iff, Nat.ltb_ge, Z.leb_gt. simpl. tauto.
Qed.

(** With enough passes allowed the loop stops because its condition
    fails, and more passes change nothing. *)
Lemma locateLoop_exits fuel st :
  (18 - (today - cursor st) <= Z.of_nat fuel)%Z ->
  loopCondition today (locateLoop fetch today fuel st) = false.
Proof.
  revert st. induction fuel as [|fuel IH]; intros st Hfuel; simpl.
  - destruct (loopCondition today st) eqn:E; [|reflexivity].
    apply loopCondition_true in E. lia.
  - destruct (loopCondition today st) eqn:E; [|assumption].
    apply IH. rewrite loopBody_cursor. lia.
Qed.

Lemma locateLoop_stable fuel st :
  loopCondition today st = false -> locateLoop fetch today fuel st = st.
Proof. intros H. destruct fuel; simpl; [reflexivity|now rewrite H]. Qed.

Lemma locateLoop_more fuel extra st :
  (18 - (today - cursor st) <= Z.of_nat fuel)%Z ->
  locateLoop fetch today (fuel + extra) st = locateLoop fetch today fuel st.
Proof.
  revert st. induction fuel as [|fuel IH]; intros st Hfuel; simpl.
  - apply locateLoop_stable.
    destruct (loopCondition today st) eqn:E; [|reflexivity].
    apply loopCondition_true in E. lia.
  - destruct (loopCondition today st) eqn:E; [|reflexivity].
    apply IH. rewrite loopBody_cursor. lia.
Qed.

(** The loop walks back day by day and collects the sessions of the
    dates it passes, in the order it passes them. *)
Lemma locateLoop_trace fuel st :
  exists n : nat,
    (n <= fuel)%nat /\
    cursor (locateLoop fetch today fuel st) = (cursor st - Z.of_nat n)%Z /\
    dailyMaps (locateLoop fetch today fuel st) =
    dailyMaps st ++ sessionsOf fetch (datesBack (cursor st) n).
Proof.
  revert st. induction fuel as [|fuel IH]; intros st; simpl.
  - exists 0%nat. simpl. rewrite app_nil_r. repeat split; lia.
  - destruct (loopCondition today st) eqn:E.
    + destruct (IH (loopBody fetch st)) as (n & Hn & Hc & Hm).
      exists (S n). split; [lia|]. split.
      * rewrite Hc, loopBody_cursor. lia.
      * rewrite Hm, datesBack_S, loopBody_cursor, loopBody_sessionAt.
        unfold sessionsOf at 2. simpl.
        destruct (sessionAt fetch (cursor st - 1)%Z); simpl;
          [now rewrite <- app_assoc|reflexivity].
    + exists 0%nat. simpl. rewrite app_nil_r. repeat split; lia.
Qed.

Lemma locateLoop_length fuel st :
  (List.length (dailyMaps st) <= 5)%nat ->
  (List.length (dailyMaps (locateLoop fetch today fuel st)) <= 5)%nat.
Proof.
  revert st. induction fuel as [|fuel IH]; intros st Hlen; simpl;
    [assumption|].
  destruct (loopCondition today st) eqn:E; [|assumption].
  apply IH. apply loopCondition_true in E.
  pose proof (loopBody_length st). lia.
Qed.

(** What the locator returns: the sessions of the [n] days before today,
    most recent first, for the [n] at which the condition fails. *)
Lemma locate_spec :
  exists n : nat,
    (n <= 18)%nat /\
    cursor (locate fetch today) = (today - Z.of_nat n)%Z /\
    dailyMaps (locate fetch today) = sessionsOf fetch (datesBack today n) /\
    loopCondition today (locate fetch today) = false /\
    (List.length (dailyMaps (locate fetch today)) <= 5)%nat.
Proof.
  unfold locate.
  destruct (locateLoop_trace 18 (initialState today)) as (n & Hn & Hc & Hm).
  exists n. unfold initialState in *. cbn [cursor dailyMaps app] in Hc, Hm.
  repeat split; try assumption.
  - apply locateLoop_exits. cbn [cursor]. lia.
  - apply locateLoop_length. cbn [dailyMaps List.length]. lia.
Qed.

Lemma sessionsOf_nil dates :
  sessionsOf fetch dates = [] <->
  forall d, In d dates -> sessionAt fetch d = None.
Proof.
  unfold sessionsOf. induction dates as [|d dates IH]; simpl.
  - split; [intros _ ? []|reflexivity].
  - destruct (sessionAt fetch d) eqn:E; simpl.
    + split; [discriminate|]. intros H.
      specialize (H d (or_introl eq_refl)). congruence.
    + rewrite IH. split.
      * intros H d' [<-|Hin]; auto.
      * intros H d' Hin. apply H. now right.
Qed.

(** No session is found exactly when none of the eighteen days before
    today yields one. *)
Lemma locate_nil_iff :
  dailyMaps (locate fetch today) = [] <->
  forall d, (today - 18 <= d < today)%Z -> sessionAt fetch d = None.
Proof.
  destruct locate_spec as (n & Hn & Hc & Hm & Hexit & _).
  rewrite Hm, sessionsOf_nil. split.
  - intros Hnone d Hd. apply Hnone, datesBack_In.
    apply loopCondition_false in Hexit.
    rewrite Hm in Hexit.
    assert (Hnil : sessionsOf fetch (datesBack today n) = [])
      by now apply sessionsOf_nil.
    rewrite Hnil, Hc in Hexit. cbn [List.length] in Hexit. lia.
  - intros Hnone d Hd. apply Hnone. apply datesBack_In in Hd. lia.
Qed.

End LocatorFacts.

(** The locator sees the archive through [sessionAt] only. *)
Lemma locateLoop_ext (fetch fetch' : Date -> FetchOutcome) (today : Date) :
  (forall d, sessionAt fetch d = sessionAt fetch' d) ->
  forall fuel st,
    locateLoop fetch today fuel st = locateLoop fetch' today fuel st.
Proof.
  intros Hext. induction fuel as [|fuel IH]; intros st; simpl;
    [reflexivity|].
  destruct (loopCondition today st); [|reflexivity].
  rewrite IH. f_equal. now rewrite !loopBody_sessionAt, Hext.
Qed.

(** C4. The handler answers with the "no recent trading days" error (status
    502) exactly when the locator found no session, which is exactly when
    none of the eighteen days before today yields one; otherwise it answers
    200.  A date whose retrieval fails, in whichever way, only moves the
    cursor: the response is the same for two archives that yield the same
    sessions, and no other status exists. *)
Theorem no_sessions_is_the_only_failure
  (log10 : Q -> Q) (fetch : Date -> FetchOutcome) (today : Date) :
  (POST log10 fetch today = mkResponse 502 (ErrorBody noSessionsMessage) <->
   dailyMaps (locate fetch today) = []) /\
  (dailyMaps (locate fetch today) = [] <->
   forall d, (today - 18 <= d < today)%Z -> sessionAt fetch d = None) /\
  (dailyMaps (locate fetch today) <> [] ->
   exists n top, POST log10 fetch today = mkResponse 200 (AnalysisBody n top)) /\
  (forall st, isFailure (fetch (cursor st - 1)%Z) = true ->
   loopBody fetch st = mkLocatorState (cursor st - 1)%Z (dailyMaps st)) /\
  (forall fetch', (forall d, sessionAt fetch d = sessionAt fetch' d) ->
   POST log10 fetch' today = POST log10 fetch today).
Proof.
  split; [|split; [|split; [|split]]].
  - unfold POST, noSessionsMessage.
    destruct (dailyMaps (locate fetch today)) as [|m l];
      cbn [List.length Nat.eqb].
    + tauto.
    + split; discriminate.
  - apply locate_nil_iff.
  - unfold POST. destruct (dailyMaps (locate fetch today)) as [|m l];
      cbn [List.length Nat.eqb].
    + congruence.
    + intros _. eauto.
  - intros st Hfail. unfold loopBody.
    destruct (isWeekend (cursor st - 1)%Z); [reflexivity|].
    destruct (fetch (cursor st - 1)%Z); try reflexivity. discriminate.
  - intros fetch' Hext. unfold POST, locate.
    now rewrite (locateLoop_ext fetch fetch' today Hext).
Qed.

(** C5 (as stated, refuted).  From Monday 1970-01-05 the first pass lands on
    a Sunday and raises the budget used by one.  With the only report on
    the thirteenth weekday back (nineteen days back) the walk gives up
    after twelve weekdays and six weekend days; from Saturday 1970-01-03,
    with the only report eighteen days back, it passes thirteen weekdays
    without data and still finds the session. *)
Lemma weekend_days_use_the_budget :
  let monday := 4%Z in
  let saturday := 2%Z in
  let report := [eqRow "ABC" "110" "90" "105" "1000" "100000"] in
  let st := initialState monday in
  isWeekend (cursor st - 1)%Z = true /\
  budgetUsed monday (loopBody (fun _ => ResponseNotOk) st) <>
  budgetUsed monday st /\
  List.length (filter (fun d => negb (isWeekend d)) (datesBack monday 18))
  = 12%nat /\
  isWeekend (monday - 19)%Z = false /\
  status (POST (fun _ => 0) (archiveOf [((monday - 19)%Z, report)]) monday)
  = 502%nat /\
  List.length (filter (fun d => negb (isWeekend d)) (datesBack saturday 17))
  = 13%nat /\
  status (POST (fun _ => 0) (archiveOf [((saturday - 18)%Z, report)]) saturday)
  = 200%nat.
Proof. vm_compute. repeat split; discriminate. Qed.

(** C5 (amended).  The loop runs while fewer than five sessions are held and
    the budget used, sessions held plus calendar days walked back, is at
    most 17.  It stops because that condition fails, whatever the number of
    passes allowed beyond eighteen, within the eighteen days before today
    and with at most five sessions; when it finds nothing it has walked all
    eighteen.  Every pass costs budget: a
    weekend day is passed without a fetch and raises the budget used by
    one, like a weekday without data; a day with a session raises it by
    two. *)
Theorem lookback_is_in_calendar_days
  (fetch : Date -> FetchOutcome) (today : Date) :
  let final := locate fetch today in
  (forall st,
     loopCondition today st =
     (List.length (dailyMaps st) <? 5)%nat && (budgetUsed today st <=? 17)%Z) /\
  (forall extra,
     locateLoop fetch today (18 + extra) (initialState today) = final) /\
  loopCondition today final = false /\
  (today - 18 <= cursor final <= today)%Z /\
  (List.length (dailyMaps final) <= 5)%nat /\
  (dailyMaps final = [] -> cursor final = (today - 18)%Z) /\
  (forall st, isWeekend (cursor st - 1)%Z = true ->
     loopBody fetch st = mkLocatorState (cursor st - 1)%Z (dailyMaps st) /\
     budgetUsed today (loopBody fetch st) = (budgetUsed today st + 1)%Z) /\
  (forall st, sessionAt fetch (cursor st - 1)%Z = None ->
     budgetUsed today (loopBody fetch st) = (budgetUsed today st + 1)%Z) /\
  (forall st m, sessionAt fetch (cursor st - 1)%Z = Some m ->
     budgetUsed today (loopBody fetch st) = (budgetUsed today st + 2)%Z).
Proof.
  cbv zeta.
  destruct (locate_spec fetch today) as (n & Hn & Hc & Hm & Hexit & Hlen).
  assert (Hnone : forall st, sessionAt fetch (cursor st - 1)%Z = None ->
            budgetUsed today (loopBody fetch st) = (budgetUsed today st + 1)%Z).
  { intros st Hs. rewrite loopBody_sessionAt, Hs.
    unfold budgetUsed, diffDays. cbn [cursor dailyMaps]. lia. }
  split; [reflexivity|].
  split; [intros extra; apply locateLoop_more; cbn [cursor initialState]; lia|].
  repeat split; try assumption; try lia.
  - intros Hnil. apply (loopCondition_false fetch) in Hexit.
    rewrite Hnil in Hexit. cbn [List.length] in Hexit. lia.
  - unfold loopBody. now rewrite H.
  - apply Hnone. unfold sessionAt. now rewrite H.
  - intros st m Hs. rewrite loopBody_sessionAt, Hs.
    unfold budgetUsed, diffDays. cbn [cursor dailyMaps].
    rewrite length_app. cbn [List.length]. lia.
Qed.

(** C6 (as stated, refuted).  The only report, on Thursday 1970-01-01, has
    one regular-equity row, of traded quantity zero: the aggregator passes
    over it, no session contributes a row, and the run reports one day
    analysed. *)
Lemma daysAnalyzed_counts_a_session_without_rows :
  let fetch := archiveOf [(0%Z, [eqRow "ABC" "110" "90" "105" "0" "0"])] in
  let today := 1%Z in
  POST (fun _ => 0) fetch today = mkResponse 200 (AnalysisBody 1 []) /\
  aggregate (dailyMaps (locate fetch today)) = [] /\
  contributingSessions (dailyMaps (locate fetch today)) = 0%nat.
Proof. vm_compute. repeat split. Qed.

Lemma sessionsOf_Forall (fetch : Date -> FetchOutcome)
  (P : JsMap Row -> Prop) (dates : list Date) :
  (forall d m, sessionAt fetch d = Some m -> P m) ->
  Forall P (sessionsOf fetch dates).
Proof.
  intros HP. unfold sessionsOf.
  induction dates as [|d dates IH]; simpl; [constructor|].
  destruct (sessionAt fetch d) eqn:E; simpl; [|assumption].
  constructor; eauto.
Qed.

Lemma sessionAt_nonempty (fetch : Date -> FetchOutcome) (d : Date)
  (m : JsMap Row) :
  sessionAt fetch d = Some m -> (0 < map_size m)%nat.
Proof.
  unfold sessionAt. destruct (isWeekend d); [discriminate|].
  destruct (fetch d); try discriminate.
  destruct (0 <? map_size (buildDayMap records))%nat eqn:E; [|discriminate].
  intros [= <-]. now apply Nat.ltb_lt.
Qed.

(** C6 (amended).  On success [daysAnalyzed] is the number of sessions the
    locator found, between one and five: days among the eighteen before
    today whose report has at least one regular-equity row, whether or not
    any of those rows gets past the positivity check of the aggregator; the
    sessions that contribute a row are at most that many. *)
Theorem daysAnalyzed_is_sessions_found
  (log10 : Q -> Q) (fetch : Date -> FetchOutcome) (today : Date)
  (n : nat) (top : list StockRow.t) :
  POST log10 fetch today = mkResponse 200 (AnalysisBody n top) ->
  n = List.length (dailyMaps (locate fetch today)) /\
  (1 <= n <= 5)%nat /\
  (exists k : nat,
     (k <= 18)%nat /\
     dailyMaps (locate fetch today) = sessionsOf fetch (datesBack today k)) /\
  Forall (fun m => (0 < map_size m)%nat) (dailyMaps (locate fetch today)) /\
  (contributingSessions (dailyMaps (locate fetch today)) <= n)%nat.
Proof.
  intros HPOST.
  destruct (locate_spec fetch today) as (k & Hk & _ & Hm & _ & Hlen).
  assert (Hn : n = List.length (dailyMaps (locate fetch today)) /\ (1 <= n)%nat).
  { unfold POST in HPOST.
    destruct (dailyMaps (locate fetch today)) as [|m l];
      cbn [List.length Nat.eqb] in HPOST; [discriminate|].
    injection HPOST as <- _. cbn [List.length]. split; [reflexivity|lia]. }
  destruct Hn as [Hn Hpos]. repeat split; try assumption.
  - lia.
  - exists k. now split.
  - rewrite Hm. apply sessionsOf_Forall. intros d m. apply sessionAt_nonempty.
  - rewrite Hn. unfold contributingSessions. apply filter_length_le.
Qed.

Lemma daysAnalyzed_is_sessions_found_witness :
  POST (fun _ => 0) coverageArchive 2%Z
  = mkResponse 200 (AnalysisBody 3 [coverageABC]) /\
  3%nat = List.length (dailyMaps (locate coverageArchive 2%Z)) /\
  (1 <= 3 <= 5)%nat /\
  (contributingSessions (dailyMaps (locate coverageArchive 2%Z)) <= 3)%nat.
Proof.
  assert (HPOST : POST (fun _ => 0) coverageArchive 2%Z
                  = mkResponse 200 (AnalysisBody 3 [coverageABC]))
    by (vm_compute; reflexivity).
  split; [exact HPOST|].
  destruct (daysAnalyzed_is_sessions_found
              (fun _ => 0) coverageArchive 2%Z 3%nat [coverageABC] HPOST)
    as (Hn & Hrange & _ & _ & Hcontrib).
  split; [exact Hn|]. split; [exact Hrange|exact Hcontrib].
Defined.

(** ** Money-flow aggregator *)

Lemma buildDayMap_NoDup (records : list Row) :
  NoDup (map_keys (buildDayMap records)).
Proof.
  unfold buildDayMap.
  assert (H : forall m : JsMap Row, NoDup (map_keys m) ->
            NoDup (map_keys (fold_left
              (fun map r =>
                 if String.eqb (SERIES r) "EQ" then map_set (SYMBOL r) r map
                 else map) records m))).
  { induction records as [|r records IH]; intros m Hm; simpl; [assumption|].
    apply IH. destruct (String.eqb (SERIES r) "EQ"); [|assumption].
    now apply map_set_NoDup. }
  apply H. constructor.
Qed.

Lemma sessionAt_NoDup (fetch : Date -> FetchOutcome) (d : Date)
  (m : JsMap Row) :
  sessionAt fetch d = Some m -> NoDup (map_keys m).
Proof.
  unfold sessionAt. destruct (isWeekend d); [discriminate|].
  destruct (fetch d); try discriminate.
  destruct (0 <? map_size (buildDayMap records))%nat; [|discriminate].
  intros [= <-]. apply buildDayMap_NoDup.
Qed.

(** Every map the locator returns has one row per symbol. *)
Lemma locate_NoDup (fetch : Date -> FetchOutcome) (today : Date) :
  Forall (fun m => NoDup (map_keys m)) (dailyMaps (locate fetch today)).
Proof.
  destruct (locate_spec fetch today) as (k & _ & _ & -> & _).
  apply sessionsOf_Forall. intros d m. apply sessionAt_NoDup.
Qed.

Lemma foldRow_eq (agg : JsMap Aggregated) (sym : string) (r : Row) :
  foldRow agg (sym, r) =
  if contributes r then
    map_set sym
      (contribute r
         (match map_get sym agg with
          | Some a => a
          | None => freshAggregated sym
          end)) agg
  else agg.
Proof.
  unfold foldRow, contributes, contribute.
  now destruct (discarded _ _ _).
Qed.

Lemma foldRow_get_other (agg : JsMap Aggregated) (k sym : string) (r : Row) :
  k <> sym -> map_get sym (foldRow agg (k, r)) = map_get sym agg.
Proof.
  intros Hne. rewrite foldRow_eq. destruct (contributes r); [|reflexivity].
  now apply map_get_set_other.
Qed.

Lemma foldRow_get_same (agg : JsMap Aggregated) (sym : string) (r : Row) :
  map_get sym (foldRow agg (sym, r)) =
  stepSymbol sym (map_get sym agg) [(sym, r)].
Proof.
  rewrite foldRow_eq. unfold stepSymbol. simpl. rewrite String.eqb_refl.
  destruct (contributes r); [|reflexivity].
  apply map_get_set_same.
Qed.

(** A session reaches the accumulator of a symbol through the one row it
    has for that symbol, if it has one. *)
Lemma foldDay_get (dayMap : JsMap Row) :
  NoDup (map_keys dayMap) ->
  forall (agg : JsMap Aggregated) (sym : string),
    map_get sym (foldDay agg dayMap) = stepSymbol sym (map_get sym agg) dayMap.
Proof.
  unfold foldDay.
  induction dayMap as [|[k r] dayMap IH]; intros Hnd agg sym.
  - reflexivity.
  - inversion Hnd as [|? ? Hnotin Hnd']; subst. cbn [fold_left].
    rewrite IH by assumption.
    destruct (string_dec k sym) as [->|Hne].
    + rewrite foldRow_get_same. unfold stepSymbol. simpl.
      rewrite String.eqb_refl.
      apply map_get_None in Hnotin. now rewrite Hnotin.
    + rewrite foldRow_get_other by assumption. unfold stepSymbol. simpl.
      apply String.eqb_neq in Hne. now rewrite Hne.
Qed.

Lemma foldDays_get (chronological : list (JsMap Row)) :
  Forall (fun m => NoDup (map_keys m)) chronological ->
  forall (agg : JsMap Aggregated) (sym : string),
    map_get sym (foldDays agg chronological) =
    fold_left (stepSymbol sym) chronological (map_get sym agg).
Proof.
  unfold foldDays.
  induction chronological as [|m chronological IH]; intros Hnd agg sym.
  - reflexivity.
  - inversion Hnd; subst. cbn [fold_left].
    rewrite IH by assumption. now rewrite foldDay_get.
Qed.

Lemma tracks_step (sym : string) (rows : list Row)
  (acc : option Aggregated) (dayMap : JsMap Row) :
  tracks rows acc ->
  tracks (rows ++ contributionsOf sym [dayMap]) (stepSymbol sym acc dayMap).
Proof.
  unfold contributionsOf, stepSymbol. simpl. rewrite app_nil_r.
  destruct (map_get sym dayMap) as [r|]; [|now rewrite app_nil_r].
  destruct (contributes r); [|now rewrite app_nil_r].
  intros Hacc. unfold tracks. rewrite rev_app_distr, length_app. simpl.
  split; [now destruct rows|].
  destruct acc as [a|]; simpl in Hacc.
  - destruct Hacc as (Hne & Hfirst & _ & Hdays).
    rewrite Hfirst, Hdays. destruct rows as [|r0 rows]; [contradiction|].
    simpl. repeat split.
  - subst rows. simpl. repeat split.
Qed.

Lemma tracks_fold (sym : string) (chronological : list (JsMap Row)) :
  forall (rows : list Row) (acc : option Aggregated),
    tracks rows acc ->
    tracks (rows ++ contributionsOf sym chronological)
      (fold_left (stepSymbol sym) chronological acc).
Proof.
  induction chronological as [|m chronological IH]; intros rows acc Hacc.
  - simpl. now rewrite app_nil_r.
  - cbn [fold_left].
    replace (contributionsOf sym (m :: chronological))
      with (contributionsOf sym [m] ++ contributionsOf sym chronological)
      by (unfold contributionsOf; simpl; now rewrite app_nil_r).
    rewrite app_assoc. apply IH. now apply tracks_step.
Qed.

(** The accumulators after folding sessions that have one row per symbol. *)
Lemma foldDays_tracks (chronological : list (JsMap Row)) (sym : string) :
  Forall (fun m => NoDup (map_keys m)) chronological ->
  tracks (contributionsOf sym chronological)
    (map_get sym (foldDays [] chronological)).
Proof.
  intros Hnd. rewrite foldDays_get by assumption.
  apply (tracks_fold sym chronological [] None). reflexivity.
Qed.

Lemma datesBack_sorted (c : Date) (n : nat) :
  StronglySorted Z.gt (datesBack c n).
Proof.
  revert c. induction n as [|n IH]; intros c.
  - constructor.
  - rewrite datesBack_S. constructor; [apply IH|].
    apply Forall_forall. intros d Hd. apply datesBack_In in Hd. lia.
Qed.

(** C8. The sessions the locator returns are those of the days before
    today taken most recent first; the aggregator folds them in the reverse
    of that order.  The accumulator of a symbol then has as [firstClose] the
    close of the oldest session whose row for the symbol gets past the
    check, and as [lastClose] the close of the most recent such session. *)
Theorem closes_follow_chronological_order
  (fetch : Date -> FetchOutcome) (today : Date) (sym : string)
  (a : Aggregated) :
  map_get sym (aggregate (dailyMaps (locate fetch today))) = Some a ->
  (exists n : nat,
     dailyMaps (locate fetch today) = sessionsOf fetch (datesBack today n) /\
     StronglySorted Z.gt (datesBack today n)) /\
  aggregate (dailyMaps (locate fetch today)) =
  foldDays [] (rev (dailyMaps (locate fetch today))) /\
  contributionsOf sym (rev (dailyMaps (locate fetch today))) <> [] /\
  firstClose a =
  option_map closeOf
    (hd_error (contributionsOf sym (rev (dailyMaps (locate fetch today))))) /\
  lastClose a =
  option_map closeOf
    (hd_error
       (rev (contributionsOf sym (rev (dailyMaps (locate fetch today)))))).
Proof.
  intros Hget.
  split; [|split; [reflexivity|]].
  - destruct (locate_spec fetch today) as (n & _ & _ & Hm & _).
    exists n. split; [exact Hm|apply datesBack_sorted].
  - set (found := dailyMaps (locate fetch today)) in *.
    assert (Hnd : Forall (fun m => NoDup (map_keys m)) (rev found))
      by (apply Forall_rev, locate_NoDup).
    pose proof (foldDays_tracks (rev found) sym Hnd) as Htr.
    unfold aggregate in Hget. cbv zeta in Hget.
    rewrite Hget in Htr. cbn [tracks] in Htr. tauto.
Qed.

Lemma closes_follow_chronological_order_witness :
  map_get "ABC" (aggregate (dailyMaps (locate scenarioArchive scenarioToday)))
  = Some scenarioABC /\
  firstClose scenarioABC = Some 105 /\
  lastClose scenarioABC = Some 118.
Proof.
  assert (Hget : map_get "ABC"
            (aggregate (dailyMaps (locate scenarioArchive scenarioToday)))
          = Some scenarioABC) by reflexivity.
  split; [exact Hget|].
  destruct (closes_follow_chronological_order
              scenarioArchive scenarioToday "ABC" scenarioABC Hget)
    as (_ & _ & _ & Hfirst & Hlast).
  split; [exact Hfirst|exact Hlast].
Defined.

Lemma contributes_volume_pos (r : Row) :
  contributes r = true -> 0 < safeNumber (TOTTRDQTY r).
Proof.
  unfold contributes, discarded. rewrite negb_true_iff, !orb_false_iff.
  intros [[Hv _] _]. apply Qnot_le_lt. intros Hle.
  apply Qle_bool_iff in Hle. congruence.
Qed.

(** One row leaves every accumulator in place and can only add to it. *)
Lemma foldRow_grows (agg : JsMap Aggregated) (k : string) (r : Row)
  (sym : string) (a : Aggregated) :
  map_get sym agg = Some a ->
  exists a' : Aggregated,
    map_get sym (foldRow agg (k, r)) = Some a' /\
    sumVolume a <= sumVolume a' /\
    (days a <= days a')%nat /\
    ((contributes r = true -> 0 <= safeNumber (TOTTRDVAL r)) ->
     sumTradedValue a <= sumTradedValue a').
Proof.
  intros Hget. destruct (string_dec k sym) as [->|Hne].
  - rewrite foldRow_get_same, Hget. unfold stepSymbol. simpl.
    rewrite String.eqb_refl. destruct (contributes r) eqn:E.
    + eexists. split; [reflexivity|]. simpl.
      pose proof (contributes_volume_pos r E).
      repeat split; [lra|lia|]. intros Hval. specialize (Hval eq_refl). lra.
    + exists a. repeat split; [lra|lia|]. intros _. lra.
  - rewrite foldRow_get_other, Hget by assumption.
    exists a. repeat split; [lra|lia|]. intros _. lra.
Qed.

Lemma foldDay_grows (dayMap : JsMap Row) :
  forall (agg : JsMap Aggregated) (sym : string) (a : Aggregated),
    map_get sym agg = Some a ->
    exists a' : Aggregated,
      map_get sym (foldDay agg dayMap) = Some a' /\
      sumVolume a <= sumVolume a' /\
      (days a <= days a')%nat /\
      ((forall k r, In (k, r) dayMap -> contributes r = true ->
                    0 <= safeNumber (TOTTRDVAL r)) ->
       sumTradedValue a <= sumTradedValue a').
Proof.
  unfold foldDay.
  induction dayMap as [|[k r] dayMap IH]; intros agg sym a Hget.
  - exists a. simpl. repeat split; [assumption|lra|lia|]. intros _. lra.
  - cbn [fold_left].
    destruct (foldRow_grows agg k r sym a Hget) as (a1 & Hget1 & Hv1 & Hd1 & Ht1).
    destruct (IH _ sym a1 Hget1) as (a2 & Hget2 & Hv2 & Hd2 & Ht2).
    exists a2. repeat split; [assumption|lra|lia|].
    intros Hval.
    assert (sumTradedValue a <= sumTradedValue a1)
      by (apply Ht1; apply (Hval k r); now left).
    assert (sumTradedValue a1 <= sumTradedValue a2)
      by (apply Ht2; intros k' r' Hin; apply (Hval k' r'); now right).
    lra.
Qed.

Lemma contributionsOf_length (sym : string) (sessions : list (JsMap Row)) :
  (List.length (contributionsOf sym sessions) <= List.length sessions)%nat.
Proof.
  unfold contributionsOf. induction sessions as [|m sessions IH]; simpl.
  - lia.
  - rewrite length_app.
    destruct (map_get sym m) as [r|]; [destruct (contributes r)|]; simpl; lia.
Qed.

Lemma foldDays_days (chronological : list (JsMap Row)) (sym : string)
  (a : Aggregated) :
  Forall (fun m => NoDup (map_keys m)) chronological ->
  map_get sym (foldDays [] chronological) = Some a ->
  (days a <= List.length chronological)%nat.
Proof.
  intros Hnd Hget.
  pose proof (foldDays_tracks chronological sym Hnd) as Htr.
  rewrite Hget in Htr. destruct Htr as (_ & _ & _ & ->).
  apply contributionsOf_length.
Qed.

(** C9 (as stated, refuted).  ABC trades on two days; the second report
    carries a negative traded value, its row gets past the check, and the
    cumulative traded value goes from 100 down to -400 while the volume
    goes from 1000 up to 3000. *)
Lemma sumTradedValue_can_decrease :
  let day1 := buildDayMap [eqRow "ABC" "110" "90" "105" "1000" "100"] in
  let day2 := buildDayMap [eqRow "ABC" "120" "100" "118" "2000" "-500"] in
  option_map sumTradedValue (map_get "ABC" (foldDays [] [day1]))
  = Some 100 /\
  option_map sumTradedValue (map_get "ABC" (foldDays [] [day1; day2]))
  = Some (-400 # 1) /\
  option_map sumVolume (map_get "ABC" (foldDays [] [day1; day2]))
  = Some 3000 /\
  ~ 100 <= -400 # 1.
Proof. repeat split. intros H. vm_compute in H. now apply H. Qed.

(** C9 (amended).  Let the sessions folded so far, and the next one, have
    one row per symbol, as the maps of the locator do ([locate_NoDup]).
    The [days] of an accumulator is at most the number of sessions folded;
    folding the next session keeps the accumulator, does not lower
    [sumVolume] or [days], and raises [days] by at most one.
    [sumTradedValue] does not go down when the rows of that session that
    get past the check have a traded value that is not negative; the check
    itself does not look at the traded value. *)
Theorem accumulators_grow_with_each_session
  (chronological : list (JsMap Row)) (dayMap : JsMap Row)
  (sym : string) (a : Aggregated) :
  Forall (fun m => NoDup (map_keys m)) (chronological ++ [dayMap]) ->
  map_get sym (foldDays [] chronological) = Some a ->
  (days a <= List.length chronological)%nat /\
  exists a' : Aggregated,
    map_get sym (foldDays [] (chronological ++ [dayMap])) = Some a' /\
    sumVolume a <= sumVolume a' /\
    (days a <= days a' <= S (List.length chronological))%nat /\
    ((forall k r, In (k, r) dayMap -> contributes r = true ->
                  0 <= safeNumber (TOTTRDVAL r)) ->
     sumTradedValue a <= sumTradedValue a').
Proof.
  intros Hnd Hget.
  assert (Hnd' : Forall (fun m => NoDup (map_keys m)) chronological)
    by (apply Forall_app in Hnd; tauto).
  split; [now apply (foldDays_days chronological sym)|].
  destruct (foldDay_grows dayMap _ sym a Hget) as (a' & Hget' & Hv & Hd & Ht).
  assert (Hfold : foldDays [] (chronological ++ [dayMap]) =
                  foldDay (foldDays [] chronological) dayMap)
    by (unfold foldDays; now rewrite fold_left_app).
  exists a'. rewrite Hfold. repeat split; try assumption.
  rewrite <- Hfold in Hget'.
  apply (foldDays_days _ sym) in Hget'; [|assumption].
  rewrite length_app in Hget'. simpl in Hget'. lia.
Qed.

Lemma accumulators_grow_with_each_session_witness :
  Forall (fun m => NoDup (map_keys m)) ([scenarioDay1] ++ [scenarioDay2]) /\
  map_get "ABC" (foldDays [] [scenarioDay1]) = Some scenarioABC1 /\
  (days scenarioABC1 <= 1)%nat /\
  exists a' : Aggregated,
    map_get "ABC" (foldDays [] ([scenarioDay1] ++ [scenarioDay2])) = Some a' /\
    sumVolume scenarioABC1 <= sumVolume a' /\
    (days scenarioABC1 <= days a' <= 2)%nat /\
    ((forall k r, In (k, r) scenarioDay2 -> contributes r = true ->
                  0 <= safeNumber (TOTTRDVAL r)) ->
     sumTradedValue scenarioABC1 <= sumTradedValue a').
Proof.
  assert (Hnd : Forall (fun m => NoDup (map_keys m))
                  ([scenarioDay1] ++ [scenarioDay2]))
    by (repeat constructor; simpl; tauto).
  assert (Hget : map_get "ABC" (foldDays [] [scenarioDay1])
                 = Some scenarioABC1) by reflexivity.
  split; [exact Hnd|]. split; [exact Hget|].
  exact (accumulators_grow_with_each_session
           [scenarioDay1] scenarioDay2 "ABC" scenarioABC1 Hnd Hget).
Defined.

(** ** Rows: coercion, the positivity check, the multiplier *)

Example Number_examples :
  Number "1234.50" = Finite (2469 # 2) /\
  Number "" = Finite 0 /\
  Number "  12e-1 " = Finite (6 # 5) /\
  Number "5." = Finite 5 /\
  Number "-.5" = Finite (-1 # 2) /\
  Number "0x1F" = Finite 31 /\
  Number "Infinity" = PosInfinity /\
  Number "-Infinity" = NegInfinity /\
  Number "1e309" = PosInfinity /\
  Number "abc" = NaN /\
  Number "-0x1F" = NaN /\
  Number "1 2" = NaN /\
  Number "1,234" = NaN /\
  Number "." = NaN.
Proof. vm_compute. repeat split. Qed.

Example safeNumber_examples :
  safeNumber (Some "1,234.50"%string) = 2469 # 2 /\
  safeNumber (Some "-"%string) = 0 /\
  safeNumber (Some ""%string) = 0 /\
  safeNumber (Some "Infinity"%string) = 0 /\
  safeNumber None = 0.
Proof. vm_compute. repeat split. Qed.

(** The two-session scenario of the specification: multipliers 0.5 and
    0.8, a CMF of 0.7, a price change of 1300/105 percent, two days. *)
Example scenario_values :
  mfm 110 90 105 == 1 # 2 /\
  mfm 120 100 118 == 4 # 5 /\
  map_get "ABC" (aggregate (dailyMaps (locate scenarioArchive scenarioToday)))
  = Some scenarioABC /\
  cmfOf scenarioABC == 7 # 10 /\
  priceChangeOf scenarioABC == 1300 # 105 /\
  days scenarioABC = 2%nat.
Proof. vm_compute. repeat split. Qed.

Lemma mfm_flat (high low close : Q) :
  high - low == 0 -> mfm high low close = 0.
Proof.
  intros H. unfold mfm. cbv zeta.
  apply Qeq_bool_iff in H. now rewrite H.
Qed.

Lemma mfm_quotient (high low close : Q) :
  ~ high - low == 0 ->
  mfm high low close = ((close - low) - (high - close)) / (high - low).
Proof.
  intros H. unfold mfm. cbv zeta.
  destruct (Qeq_bool (high - low) 0) eqn:E; [|reflexivity].
  apply Qeq_bool_iff in E. contradiction.
Qed.

Lemma contributes_iff (r : Row) :
  contributes r = true <->
  0 < safeNumber (TOTTRDQTY r) /\
  0 < safeNumber (HIGH r) /\
  0 < safeNumber (LOW r).
Proof.
  unfold contributes, discarded.
  rewrite negb_true_iff, !orb_false_iff.
  assert (H : forall q, Qle_bool q 0 = false <-> 0 < q).
  { intros q. split.
    - intros Hq. apply Qnot_le_lt. intros Hle.
      apply Qle_bool_iff in Hle. congruence.
    - intros Hq. destruct (Qle_bool q 0) eqn:E; [|reflexivity].
      apply Qle_bool_iff in E. lra. }
  rewrite !H. tauto.
Qed.

(** C2. A row that gets past the positivity check is folded into the
    accumulator of its symbol with a multiplier that, when the range
    [high - low] is zero, is the number 0 and not a quotient, so that what
    is added to the money-flow volume is [0 * volume]; otherwise the
    multiplier is [((close - low) - (high - close)) / range], a quotient
    whose divisor is not zero, and that quotient times the volume is
    added. *)
Theorem mfm_division_is_guarded
  (agg : JsMap Aggregated) (sym : string) (r : Row) :
  contributes r = true ->
  let high := safeNumber (HIGH r) in
  let low := safeNumber (LOW r) in
  let close := safeNumber (CLOSE r) in
  let volume := safeNumber (TOTTRDQTY r) in
  let before :=
    match map_get sym agg with
    | Some a => a
    | None => freshAggregated sym
    end in
  exists a : Aggregated,
    map_get sym (foldRow agg (sym, r)) = Some a /\
    (high - low == 0 ->
     mfm high low close = 0 /\
     sumMFVolume a = sumMFVolume before + 0 * volume) /\
    (~ high - low == 0 ->
     mfm high low close = ((close - low) - (high - close)) / (high - low) /\
     sumMFVolume a
     = sumMFVolume before
       + ((close - low) - (high - close)) / (high - low) * volume).
Proof.
  intros Hc high low close volume before.
  exists (contribute r before). split.
  - rewrite foldRow_get_same. unfold stepSymbol. simpl.
    now rewrite String.eqb_refl, Hc.
  - cbn [contribute sumMFVolume]. fold high low close volume. split.
    + intros Hflat. now rewrite (mfm_flat high low close Hflat).
    + intros Hne. now rewrite (mfm_quotient high low close Hne).
Qed.

Lemma mfm_division_is_guarded_witness :
  contributes (eqRow "FLAT" "100" "100" "100" "500" "50000") = true /\
  exists a : Aggregated,
    map_get "FLAT"
      (foldRow [] ("FLAT"%string, eqRow "FLAT" "100" "100" "100" "500" "50000"))
    = Some a /\
    sumMFVolume a = 0 + 0 * 500.
Proof.
  split; [reflexivity|].
  destruct (mfm_division_is_guarded []
              "FLAT" (eqRow "FLAT" "100" "100" "100" "500" "50000") eq_refl)
    as (a & Hget & Hflat & _).
  exists a. split; [exact Hget|].
  apply Hflat. reflexivity.
Defined.

(** C10. A numeric field that is missing, or whose text without commas is
    not a finite number, reads as 0, and otherwise as the number it
    denotes.  The check looks at volume, high and low only: a row in which
    these three are positive is folded into the accumulator of its symbol
    whatever its close and traded value; so is the row with close 0 and
    traded value -5 of the last part. *)
Theorem fields_coerced_and_three_checked :
  safeNumber None = 0 /\
  (forall s, isFinite (Number (removeCommas s)) = false ->
             safeNumber (Some s) = 0) /\
  (forall s q, Number (removeCommas s) = Finite q ->
               safeNumber (Some s) = q) /\
  (forall r, contributes r = true <->
             0 < safeNumber (TOTTRDQTY r) /\
             0 < safeNumber (HIGH r) /\
             0 < safeNumber (LOW r)) /\
  (forall agg sym r,
     0 < safeNumber (TOTTRDQTY r) ->
     0 < safeNumber (HIGH r) ->
     0 < safeNumber (LOW r) ->
     map_get sym (foldRow agg (sym, r)) =
     Some (contribute r
             (match map_get sym agg with
              | Some a => a
              | None => freshAggregated sym
              end))) /\
  (let r := eqRow "ABC" "110" "90" "0" "1000" "-5" in
   safeNumber (CLOSE r) = 0 /\
   safeNumber (TOTTRDVAL r) = -5 # 1 /\
   option_map days (map_get "ABC" (foldRow [] ("ABC"%string, r))) = Some 1%nat /\
   option_map sumTradedValue (map_get "ABC" (foldRow [] ("ABC"%string, r)))
   = Some (-5 # 1)).
Proof.
  split; [reflexivity|]. split; [|split; [|split; [|split]]].
  - intros s Hs. unfold safeNumber.
    now destruct (Number (removeCommas s)).
  - intros s q Hs. unfold safeNumber. now rewrite Hs.
  - apply contributes_iff.
  - intros agg sym r Hv Hh Hl.
    assert (Hc : contributes r = true) by (apply contributes_iff; tauto).
    rewrite foldRow_get_same. unfold stepSymbol. simpl.
    now rewrite String.eqb_refl, Hc.
  - vm_compute. repeat split.
Qed.

(** ** Accumulator maps *)

Lemma foldRow_keyed (agg : JsMap Aggregated) (entry : string * Row) :
  keyed agg -> keyed (foldRow agg entry).
Proof.
  destruct entry as [sym r]. intros [Hnd Hsym]. rewrite foldRow_eq.
  destruct (contributes r); [|now split].
  split; [now apply map_set_NoDup|].
  apply Forall_forall. intros [k a] Hin.
  apply map_set_In in Hin. destruct Hin as [Heq|Hin].
  - injection Heq as -> ->. simpl.
    destruct (map_get sym agg) as [a0|] eqn:E; [|reflexivity].
    apply map_get_In in E.
    rewrite Forall_forall in Hsym. exact (Hsym _ E).
  - rewrite Forall_forall in Hsym. exact (Hsym _ Hin).
Qed.

Lemma foldDays_keyed (chronological : list (JsMap Row)) :
  forall agg : JsMap Aggregated, keyed agg -> keyed (foldDays agg chronological).
Proof.
  unfold foldDays.
  induction chronological as [|m chronological IH]; intros agg Hagg;
    [assumption|].
  cbn [fold_left]. apply IH. unfold foldDay.
  revert agg Hagg. induction m as [|e m IHm]; intros agg Hagg; [assumption|].
  cbn [fold_left]. apply IHm. now apply foldRow_keyed.
Qed.

Lemma aggregate_keyed (dailyMaps : list (JsMap Row)) :
  keyed (aggregate dailyMaps).
Proof.
  unfold aggregate. apply foldDays_keyed. split; constructor.
Qed.

(** ** Ranker *)

Lemma results_In (sessions : nat) (agg : JsMap Aggregated) (x : StockRow.t) :
  In x (results sessions agg) <->
  exists a : Aggregated,
    In a (map_values agg) /\ qualifies sessions a = true /\ x = toStockRow a.
Proof.
  unfold results. rewrite in_map_iff. split.
  - intros (a & <- & Hin). apply filter_In in Hin. exists a. tauto.
  - intros (a & Hin & Hq & ->). exists a. split; [reflexivity|].
    apply filter_In. tauto.
Qed.

Section RankerFacts.

Variable log10 : Q -> Q.

Lemma sortInsert_perm x l : Permutation (sortInsert log10 x l) (x :: l).
Proof.
  induction l as [|y l IH]; simpl; [reflexivity|].
  destruct (jsPositive (compareFn log10 x y)); [|reflexivity].
  rewrite IH. apply perm_swap.
Qed.

Lemma sort_perm l : Permutation (sort log10 l) l.
Proof.
  induction l as [|x l IH]; simpl; [reflexivity|].
  rewrite sortInsert_perm. now constructor.
Qed.





Lemma topStocks_In sessions agg x :
  In x (topStocks log10 sessions agg) ->
  exists a : Aggregated,
    In a (map_values agg) /\ qualifies sessions a = true /\ x = toStockRow a.
Proof.
  unfold topStocks. intros Hin. apply firstn_In in Hin.
  apply results_In.
  now apply (Permutation_in _ (sort_perm (results sessions agg))).
Qed.

End RankerFacts.

Lemma keyed_values (agg : JsMap Aggregated) (a : Aggregated) :
  keyed agg -> In a (map_values agg) -> map_get (symbol a) agg = Some a.
Proof.
  intros [Hnd Hsym] Hin. unfold map_values in Hin.
  apply in_map_iff in Hin. destruct Hin as ([k a'] & Heq & Hin).
  simpl in Heq. subst a'.
  rewrite Forall_forall in Hsym. specialize (Hsym _ Hin). simpl in Hsym.
  rewrite Hsym. now apply In_map_get.
Qed.

(** C3. On a successful run over [n] sessions, every row of [topStocks]
    is the row of the accumulator of its symbol, and the [days] of that
    accumulator is at least [max(3, min(5, n))]; a symbol whose accumulator
    has fewer days has no row in [topStocks], whatever its CMF. *)
Theorem topStocks_meet_the_coverage_floor
  (log10 : Q -> Q) (fetch : Date -> FetchOutcome) (today : Date)
  (n : nat) (top : list StockRow.t) (x : StockRow.t) :
  POST log10 fetch today = mkResponse 200 (AnalysisBody n top) ->
  In x top ->
  n = List.length (dailyMaps (locate fetch today)) /\
  (Nat.max 3 (Nat.min 5 n) <= StockRow.daysCount x)%nat /\
  (exists a : Aggregated,
     map_get (StockRow.symbol x) (aggregate (dailyMaps (locate fetch today)))
     = Some a /\
     StockRow.daysCount x = days a /\
     x = toStockRow a) /\
  (forall sym a,
     map_get sym (aggregate (dailyMaps (locate fetch today))) = Some a ->
     (days a < Nat.max 3 (Nat.min 5 n))%nat ->
     forall y, In y top -> StockRow.symbol y <> sym).
Proof.
  intros HPOST Hx. unfold POST in HPOST.
  set (found := dailyMaps (locate fetch today)) in *.
  destruct (List.length found =? 0)%nat; [discriminate|].
  injection HPOST as <- <-.
  assert (Hrow : forall y, In y (topStocks log10 (List.length found)
                                   (aggregate found)) ->
            exists a, map_get (StockRow.symbol y) (aggregate found) = Some a /\
                      (coverageFloor (List.length found) <= days a)%nat /\
                      y = toStockRow a).
  { intros y Hy. apply topStocks_In in Hy. destruct Hy as (a & Hin & Hq & ->).
    exists a. split; [|split; [|reflexivity]].
    - apply keyed_values; [apply aggregate_keyed|assumption].
    - unfold qualifies in Hq. now apply Nat.leb_le in Hq. }
  split; [reflexivity|].
  destruct (Hrow x Hx) as (a & Hget & Hdays & ->).
  split; [exact Hdays|]. split; [exists a; now repeat split|].
  intros sym a' Hget' Hlt y Hy Hsym.
  destruct (Hrow y Hy) as (a'' & Hget'' & Hdays'' & _).
  rewrite Hsym, Hget' in Hget''. injection Hget'' as <-.
  unfold coverageFloor in Hdays''. lia.
Qed.

Lemma topStocks_meet_the_coverage_floor_witness :
  POST (fun _ => 0) coverageArchive 2%Z
  = mkResponse 200 (AnalysisBody 3 [coverageABC]) /\
  In coverageABC [coverageABC] /\
  (Nat.max 3 (Nat.min 5 3) <= StockRow.daysCount coverageABC)%nat /\
  (forall sym a,
     map_get sym (aggregate (dailyMaps (locate coverageArchive 2%Z))) = Some a ->
     (days a < Nat.max 3 (Nat.min 5 3))%nat ->
     forall y, In y [coverageABC] -> StockRow.symbol y <> sym).
Proof.
  assert (HPOST : POST (fun _ => 0) coverageArchive 2%Z
                  = mkResponse 200 (AnalysisBody 3 [coverageABC]))
    by (vm_compute; reflexivity).
  assert (Hin : In coverageABC [coverageABC]) by (left; reflexivity).
  split; [exact HPOST|]. split; [exact Hin|].
  destruct (topStocks_meet_the_coverage_floor
              (fun _ => 0) coverageArchive 2%Z 3%nat [coverageABC] coverageABC
              HPOST Hin) as (_ & Hfloor & _ & Hout).
  split; [exact Hfloor|exact Hout].
Defined.






(** ** The bound on CMF *)

Lemma mfm_bounded (high low close : Q) :
  low <= close <= high -> -1 <= mfm high low close <= 1.
Proof.
  intros [Hl Hh]. unfold mfm. cbv zeta.
  destruct (Qeq_bool (high - low) 0) eqn:E; [lra|].
  assert (Hpos : 0 < high - low).
  { apply Qnot_le_lt. intros Hle.
    assert (Heq : high - low == 0) by lra.
    apply Qeq_bool_iff in Heq. congruence. }
  split.
  - apply Qle_shift_div_l; [assumption|lra].
  - apply Qle_shift_div_r; [assumption|lra].
Qed.

Lemma contribute_flowWithinVolume (r : Row) (a : Aggregated) :
  contributes r = true -> closeInRange r ->
  flowWithinVolume a -> flowWithinVolume (contribute r a).
Proof.
  intros Hc Hr [Hv Hm]. unfold flowWithinVolume. simpl.
  pose proof (contributes_volume_pos r Hc) as Hpos.
  pose proof (mfm_bounded _ _ _ Hr) as [Hlo Hhi].
  set (m := mfm _ _ _) in *. set (v := safeNumber (TOTTRDQTY r)) in *.
  assert (H1 : m * v <= 1 * v) by (apply Qmult_le_compat_r; lra).
  assert (H2 : (-1) * v <= m * v) by (apply Qmult_le_compat_r; lra).
  lra.
Qed.

Lemma foldRow_flowWithinVolume (agg : JsMap Aggregated) (sym : string)
  (r : Row) :
  (contributes r = true -> closeInRange r) ->
  Forall flowWithinVolume (map_values agg) ->
  Forall flowWithinVolume (map_values (foldRow agg (sym, r))).
Proof.
  intros Hr Hagg. rewrite foldRow_eq.
  destruct (contributes r) eqn:Hc; [|assumption].
  rewrite Forall_forall in Hagg.
  apply Forall_forall. intros a Hin. unfold map_values in Hin.
  apply in_map_iff in Hin. destruct Hin as ([k a'] & Heq & Hin).
  simpl in Heq. subst a'. apply map_set_In in Hin.
  destruct Hin as [Heq|Hin].
  - injection Heq as -> ->.
    apply contribute_flowWithinVolume; [assumption|now apply Hr|].
    destruct (map_get sym agg) as [a0|] eqn:E.
    + apply Hagg. apply map_get_In in E. unfold map_values.
      change a0 with (snd (sym, a0)). now apply in_map.
    + unfold flowWithinVolume. simpl. lra.
  - apply Hagg. unfold map_values. change a with (snd (k, a)).
    now apply in_map.
Qed.

Lemma cmfOf_bounded (a : Aggregated) :
  flowWithinVolume a -> -1 <= cmfOf a <= 1.
Proof.
  intros [Hv Hm]. unfold cmfOf.
  destruct (Qeq_bool (sumVolume a) 0) eqn:E; [lra|].
  assert (Hpos : 0 < sumVolume a).
  { apply Qnot_le_lt. intros Hle.
    assert (Heq : sumVolume a == 0) by lra.
    apply Qeq_bool_iff in Heq. congruence. }
  split.
  - apply Qle_shift_div_l; [assumption|lra].
  - apply Qle_shift_div_r; [assumption|lra].
Qed.

Lemma foldDay_flowWithinVolume (dayMap : JsMap Row) :
  (forall k r, In (k, r) dayMap -> contributes r = true -> closeInRange r) ->
  forall agg : JsMap Aggregated,
    Forall flowWithinVolume (map_values agg) ->
    Forall flowWithinVolume (map_values (foldDay agg dayMap)).
Proof.
  unfold foldDay.
  induction dayMap as [|[k r] dayMap IH]; intros Hrows agg Hagg;
    [assumption|].
  cbn [fold_left]. apply IH.
  - intros k' r' Hin. apply (Hrows k' r'). now right.
  - apply foldRow_flowWithinVolume; [|assumption].
    apply (Hrows k r). now left.
Qed.

Lemma foldDays_flowWithinVolume (chronological : list (JsMap Row)) :
  (forall m k r, In m chronological -> In (k, r) m ->
                 contributes r = true -> closeInRange r) ->
  forall agg : JsMap Aggregated,
    Forall flowWithinVolume (map_values agg) ->
    Forall flowWithinVolume (map_values (foldDays agg chronological)).
Proof.
  unfold foldDays.
  induction chronological as [|m chronological IH]; intros Hrows agg Hagg;
    [assumption|].
  cbn [fold_left]. apply IH.
  - intros m' k r Hin. apply (Hrows m' k r). now right.
  - apply foldDay_flowWithinVolume; [|assumption].
    intros k r Hin Hc. apply (Hrows m k r); [now left|assumption..].
Qed.

(** With every contributing row closing between its low and its high, the
    CMF of every accumulator is in [-1, 1]. *)
Lemma cmf_bounded_when_closes_in_range (chronological : list (JsMap Row)) :
  (forall m k r, In m chronological -> In (k, r) m ->
                 contributes r = true -> closeInRange r) ->
  forall a, In a (map_values (foldDays [] chronological)) ->
            -1 <= cmfOf a <= 1.
Proof.
  intros Hrows a Hin. apply cmfOf_bounded.
  pose proof (foldDays_flowWithinVolume chronological Hrows []
                (Forall_nil _)) as H.
  rewrite Forall_forall in H. now apply H.
Qed.

(** C1 (the code at the failing input).  The close of ABC is blank on three
    days, between a low of 90 and a high of 110.  [safeNumber] reads the
    blank as 0, each row gets past the check with multiplier
    [((0 - 90) - (110 - 0)) / 20 = -10], the accumulator has volume 3000 and
    money-flow volume -30000, and the run returns ABC with a CMF of -10. *)
Theorem cmf_is_minus_ten_when_close_is_blank (log10 : Q -> Q) :
  exists (a : Aggregated) (x : StockRow.t),
    map_get "ABC" (aggregate (dailyMaps (locate blankCloseArchive 2%Z)))
    = Some a /\
    sumVolume a == 3000 /\
    sumMFVolume a == -30000 # 1 /\
    x = toStockRow a /\
    POST log10 blankCloseArchive 2%Z = mkResponse 200 (AnalysisBody 3 [x]) /\
    StockRow.cmf x == -10 # 1 /\
    ~ -1 <= StockRow.cmf x.
Proof.
  eexists. eexists. split; [vm_compute; reflexivity|].
  split; [reflexivity|]. split; [reflexivity|]. split; [reflexivity|].
  split; [vm_compute; reflexivity|]. split; [reflexivity|].
  intros H. vm_compute in H. now apply H.
Qed.

(** * Further properties *)

(** ** The per-date map *)

Lemma find_last {A : Type} (p : A -> bool) (l : list A) (x : A) :
  find p (l ++ [x]) =
  match find p l with
  | Some y => Some y
  | None => if p x then Some x else None
  end.
Proof.
  induction l as [|y l IH]; simpl; [reflexivity|].
  now destruct (p y).
Qed.

Lemma buildDayMap_from (records : list Row) :
  forall (m : JsMap Row) (sym : string),
    map_get sym
      (fold_left
         (fun map r =>
            if String.eqb (SERIES r) "EQ" then map_set (SYMBOL r) r map
            else map) records m) =
    match find (eqRowOf sym) (rev records) with
    | Some r => Some r
    | None => map_get sym m
    end.
Proof.
  induction records as [|r records IH]; intros m sym; [reflexivity|].
  cbn [fold_left rev]. rewrite IH, find_last.
  destruct (find (eqRowOf sym) (rev records)); [reflexivity|].
  unfold eqRowOf. destruct (String.eqb (SERIES r) "EQ"); [|reflexivity].
  cbn [andb]. destruct (String.eqb (SYMBOL r) sym) eqn:E.
  - apply String.eqb_eq in E. subst sym. apply map_get_set_same.
  - apply String.eqb_neq in E. now apply map_get_set_other.
Qed.

Lemma buildDayMap_entries (records : list Row) (k : string) (r : Row) :
  In (k, r) (buildDayMap records) ->
  In r records /\ SERIES r = "EQ"%string /\ SYMBOL r = k.
Proof.
  unfold buildDayMap.
  assert (H : forall m : JsMap Row,
            (forall k r, In (k, r) m ->
                         In r records /\ SERIES r = "EQ"%string /\ SYMBOL r = k) ->
            forall rs, incl rs records ->
            In (k, r) (fold_left
              (fun map r =>
                 if String.eqb (SERIES r) "EQ" then map_set (SYMBOL r) r map
                 else map) rs m) ->
            In r records /\ SERIES r = "EQ"%string /\ SYMBOL r = k).
  { intros m Hm rs. revert m Hm.
    induction rs as [|r0 rs IH]; intros m Hm Hincl Hin; [now apply Hm|].
    cbn [fold_left] in Hin. apply (IH _) in Hin; [assumption| |].
    - intros k' r' Hin'.
      destruct (String.eqb (SERIES r0) "EQ") eqn:E; [|now apply Hm].
      apply map_set_In in Hin'. destruct Hin' as [Heq|Hin']; [|now apply Hm].
      injection Heq as -> ->. apply String.eqb_eq in E.
      repeat split; [|assumption]. apply Hincl. now left.
    - intros x Hx. apply Hincl. now right. }
  apply (H [] (fun _ _ (F : In _ []) => match F with end) records).
  apply incl_refl.
Qed.

(** X1. The map of a date has, for a symbol, the last regular-equity row of
    that symbol in the report, and nothing when there is none; every entry
    is a regular-equity row of the report filed under its own symbol. *)
Theorem buildDayMap_last_row_wins (records : list Row) :
  (forall sym,
     map_get sym (buildDayMap records) = find (eqRowOf sym) (rev records)) /\
  (forall k r,
     In (k, r) (buildDayMap records) ->
     In r records /\ SERIES r = "EQ"%string /\ SYMBOL r = k) /\
  NoDup (map_keys (buildDayMap records)).
Proof.
  split; [|split].
  - intros sym. unfold buildDayMap. rewrite buildDayMap_from.
    now destruct (find (eqRowOf sym) (rev records)).
  - apply buildDayMap_entries.
  - apply buildDayMap_NoDup.
Qed.

(** ** Where the walk stops *)

Lemma datesBack_snoc (c : Date) (n : nat) :
  datesBack c (S n) = datesBack c n ++ [(c - Z.of_nat (S n))%Z].
Proof.
  unfold datesBack. rewrite seq_S, map_app. reflexivity.
Qed.

Lemma sessionsOf_app (fetch : Date -> FetchOutcome) (l1 l2 : list Date) :
  sessionsOf fetch (l1 ++ l2) = sessionsOf fetch l1 ++ sessionsOf fetch l2.
Proof. unfold sessionsOf. apply flat_map_app. Qed.

Lemma sessionsOf_one (fetch : Date -> FetchOutcome) (d : Date) :
  sessionsOf fetch [d] =
  match sessionAt fetch d with Some m => [m] | None => [] end.
Proof. unfold sessionsOf. simpl. apply app_nil_r. Qed.

Lemma loopBody_stateAfter (fetch : Date -> FetchOutcome) (today : Date)
  (n : nat) :
  loopBody fetch (stateAfter fetch today n) = stateAfter fetch today (S n).
Proof.
  rewrite loopBody_sessionAt. unfold stateAfter. cbn [cursor dailyMaps].
  rewrite datesBack_snoc, sessionsOf_app.
  replace (today - Z.of_nat n - 1)%Z with (today - Z.of_nat (S n))%Z by lia.
  rewrite sessionsOf_one.
  destruct (sessionAt fetch (today - Z.of_nat (S n))%Z);
    [reflexivity|now rewrite app_nil_r].
Qed.

Lemma locateLoop_stateAfter (fetch : Date -> FetchOutcome) (today : Date)
  (fuel : nat) :
  forall j : nat,
  exists n : nat,
    (j <= n <= j + fuel)%nat /\
    locateLoop fetch today fuel (stateAfter fetch today j)
    = stateAfter fetch today n /\
    (forall i, (j <= i < n)%nat ->
               loopCondition today (stateAfter fetch today i) = true) /\
    ((n < j + fuel)%nat ->
     loopCondition today (stateAfter fetch today n) = false).
Proof.
  induction fuel as [|fuel IH]; intros j.
  - exists j. repeat split; lia.
  - cbn [locateLoop].
    destruct (loopCondition today (stateAfter fetch today j)) eqn:E.
    + rewrite loopBody_stateAfter.
      destruct (IH (S j)) as (n & Hn & Heq & Htrue & Hfalse).
      exists n. repeat split; try lia; try assumption.
      * intros i Hi. destruct (Nat.eq_dec i j) as [->|Hne]; [assumption|].
        apply Htrue. lia.
      * intros Hlt. apply Hfalse. lia.
    + exists j. repeat split; try lia. intros _. exact E.
Qed.

Lemma locate_first_failure (fetch : Date -> FetchOutcome) (today : Date) :
  exists n : nat,
    (n <= 18)%nat /\
    locate fetch today = stateAfter fetch today n /\
    loopCondition today (stateAfter fetch today n) = false /\
    (forall i, (i < n)%nat ->
               loopCondition today (stateAfter fetch today i) = true).
Proof.
  destruct (locateLoop_stateAfter fetch today 18 0) as (n & Hn & Heq & Ht & Hf).
  assert (H0 : stateAfter fetch today 0 = initialState today)
    by (unfold stateAfter, initialState; cbn; now rewrite Z.sub_0_r).
  rewrite H0 in Heq. fold (locate fetch today) in Heq.
  exists n. split; [lia|]. split; [exact Heq|]. split.
  - rewrite <- Heq.
    destruct (locate_spec fetch today) as (? & _ & _ & _ & Hexit & _).
    exact Hexit.
  - intros i Hi. apply Ht. lia.
Qed.

Lemma datesBack_app (n k : nat) :
  forall c : Date,
    datesBack c (n + k) = datesBack c n ++ datesBack (c - Z.of_nat n)%Z k.
Proof.
  induction n as [|n IH]; intros c.
  - simpl. now rewrite Z.sub_0_r.
  - cbn [Nat.add]. rewrite !datesBack_S, IH. cbn [app].
    replace (c - 1 - Z.of_nat n)%Z with (c - Z.of_nat (S n))%Z by lia.
    reflexivity.
Qed.

(** X2. The locator walks back exactly [n] days, where [n] is the first
    number of days at which the condition of the loop fails: five sessions
    are held, or sessions held plus days walked exceed 17.  It returns the
    sessions of those [n] days, most recent first; these are the first of
    the sessions of the eighteen days before today, none being passed over
    in favour of an older one. *)
Theorem locate_stops_at_first_failure
  (fetch : Date -> FetchOutcome) (today : Date) :
  exists n : nat,
    (n <= 18)%nat /\
    locate fetch today = stateAfter fetch today n /\
    loopCondition today (stateAfter fetch today n) = false /\
    (forall i, (i < n)%nat ->
               loopCondition today (stateAfter fetch today i) = true) /\
    sessionsOf fetch (datesBack today 18) =
    dailyMaps (locate fetch today)
    ++ sessionsOf fetch (datesBack (today - Z.of_nat n)%Z (18 - n)).
Proof.
  destruct (locate_first_failure fetch today)
    as (n & Hn & Heq & Hfalse & Htrue).
  exists n. repeat split; try assumption.
  rewrite Heq. cbn [dailyMaps stateAfter].
  rewrite <- sessionsOf_app, <- datesBack_app.
  now replace (n + (18 - n))%nat with 18%nat by lia.
Qed.

Lemma sessionsOf_datesBack_S (fetch : Date -> FetchOutcome) (today : Date)
  (n : nat) :
  (List.length (sessionsOf fetch (datesBack today (S n)))
   <= S (List.length (sessionsOf fetch (datesBack today n))))%nat.
Proof.
  rewrite datesBack_snoc, sessionsOf_app, length_app, sessionsOf_one.
  destruct (sessionAt fetch (today - Z.of_nat (S n))%Z); simpl; lia.
Qed.

(** X3. Every session found shortens the walk.  The run returns the
    sessions of the [n] days before today with, for [L] sessions returned,
    [L + n <= 19]; with fewer than five sessions [L + n] is 18 or 19, and
    five sessions are returned only when all of them lie within the 14 days
    before today. *)
Theorem lookback_shrinks_with_sessions
  (fetch : Date -> FetchOutcome) (today : Date) :
  exists n : nat,
    cursor (locate fetch today) = (today - Z.of_nat n)%Z /\
    dailyMaps (locate fetch today) = sessionsOf fetch (datesBack today n) /\
    (List.length (dailyMaps (locate fetch today)) + n <= 19)%nat /\
    ((List.length (dailyMaps (locate fetch today)) < 5)%nat ->
     (18 <= List.length (dailyMaps (locate fetch today)) + n)%nat) /\
    (List.length (dailyMaps (locate fetch today)) = 5%nat -> (n <= 14)%nat).
Proof.
  destruct (locate_first_failure fetch today)
    as (n & Hn & Heq & Hfalse & Htrue).
  exists n. rewrite Heq. cbn [cursor dailyMaps stateAfter].
  split; [reflexivity|]. split; [reflexivity|].
  apply (loopCondition_false fetch) in Hfalse.
  cbn [cursor dailyMaps stateAfter] in Hfalse.
  assert (Hprev : (List.length (sessionsOf fetch (datesBack today n)) + n
                   <= 19)%nat).
  { destruct n as [|n]; [simpl; lia|].
    specialize (Htrue n (Nat.lt_succ_diag_r n)).
    apply (loopCondition_true fetch) in Htrue.
    cbn [cursor dailyMaps stateAfter] in Htrue.
    pose proof (sessionsOf_datesBack_S fetch today n). lia. }
  split; [exact Hprev|]. split; lia.
Qed.

(** ** The accumulator as running sums over the contributing rows *)

Lemma runningSum_snoc (f : Row -> Q) (rows : list Row) (r : Row) :
  runningSum f (rows ++ [r]) = runningSum f rows + f r.
Proof.
  unfold runningSum. now rewrite fold_left_app.
Qed.

Lemma totals_step (sym : string) (rows : list Row)
  (acc : option Aggregated) (dayMap : JsMap Row) :
  totals sym rows acc ->
  totals sym (rows ++ contributionsOf sym [dayMap]) (stepSymbol sym acc dayMap).
Proof.
  unfold contributionsOf, stepSymbol. cbn [flat_map]. rewrite app_nil_r.
  destruct (map_get sym dayMap) as [r|]; [|now rewrite app_nil_r].
  destruct (contributes r); [|now rewrite app_nil_r].
  intros Hacc. unfold totals. rewrite !runningSum_snoc.
  destruct acc as [a|]; cbn [totals] in Hacc.
  - destruct Hacc as (Hsym & Hv & Ht & Hm).
    cbn [contribute symbol sumVolume sumTradedValue sumMFVolume].
    rewrite Hv, Ht, Hm. repeat split. assumption.
  - subst rows.
    cbn [contribute freshAggregated symbol sumVolume sumTradedValue
           sumMFVolume].
    repeat split.
Qed.

Lemma totals_fold (sym : string) (chronological : list (JsMap Row)) :
  forall (rows : list Row) (acc : option Aggregated),
    totals sym rows acc ->
    totals sym (rows ++ contributionsOf sym chronological)
      (fold_left (stepSymbol sym) chronological acc).
Proof.
  induction chronological as [|m chronological IH]; intros rows acc Hacc.
  - simpl. now rewrite app_nil_r.
  - cbn [fold_left].
    replace (contributionsOf sym (m :: chronological))
      with (contributionsOf sym [m] ++ contributionsOf sym chronological)
      by (unfold contributionsOf; simpl; now rewrite app_nil_r).
    rewrite app_assoc. apply IH. now apply totals_step.
Qed.

Lemma foldDays_totals (chronological : list (JsMap Row)) (sym : string) :
  Forall (fun m => NoDup (map_keys m)) chronological ->
  totals sym (contributionsOf sym chronological)
    (map_get sym (foldDays [] chronological)).
Proof.
  intros Hnd. rewrite foldDays_get by assumption.
  apply (totals_fold sym chronological [] None). reflexivity.
Qed.

Lemma contributionsOf_contribute (sym : string) (sessions : list (JsMap Row)) :
  Forall (fun r => contributes r = true) (contributionsOf sym sessions).
Proof.
  unfold contributionsOf. induction sessions as [|m sessions IH]; simpl;
    [constructor|].
  apply Forall_app. split; [|assumption].
  destruct (map_get sym m) as [r|]; [|constructor].
  destruct (contributes r) eqn:E; repeat constructor. exact E.
Qed.

Lemma runningSum_volume_nonneg (rows : list Row) :
  Forall (fun r => contributes r = true) rows ->
  0 <= runningSum volumeOf rows.
Proof.
  induction rows as [|r rows IH] using rev_ind; intros Hall.
  - unfold runningSum. simpl. lra.
  - apply Forall_app in Hall. destruct Hall as [Hrows Hr].
    apply Forall_inv in Hr. apply contributes_volume_pos in Hr.
    rewrite runningSum_snoc. specialize (IH Hrows). unfold volumeOf at 2. lra.
Qed.

Lemma runningSum_volume_pos (rows : list Row) :
  Forall (fun r => contributes r = true) rows -> rows <> [] ->
  0 < runningSum volumeOf rows.
Proof.
  intros Hall Hne. destruct rows as [|r rows] using rev_ind;
    [contradiction|]. clear Hne IHrows.
  apply Forall_app in Hall. destruct Hall as [Hrows Hr].
  apply Forall_inv in Hr. apply contributes_volume_pos in Hr.
  rewrite runningSum_snoc.
  pose proof (runningSum_volume_nonneg rows Hrows). unfold volumeOf at 2. lra.
Qed.

Lemma cmfOf_unguarded (a : Aggregated) :
  0 < sumVolume a -> cmfOf a = sumMFVolume a / sumVolume a.
Proof.
  intros Hpos. unfold cmfOf.
  destruct (Qeq_bool (sumVolume a) 0) eqn:E; [|reflexivity].
  apply Qeq_bool_iff in E. lra.
Qed.

(** X4. After folding sessions that have one row per symbol, the
    accumulator of a symbol is filed under that symbol and holds the
    running sums over the rows of the symbol that got past the check, in
    the order of the sessions: [days] is their number, and each of the
    three sums is what adding, from 0, the volume, the traded value or the
    money-flow volume of one row after the other gives; its CMF is the last
    of these sums divided by the first. *)
Theorem accumulator_is_sum_of_contributions
  (chronological : list (JsMap Row)) (sym : string) (a : Aggregated) :
  Forall (fun m => NoDup (map_keys m)) chronological ->
  map_get sym (foldDays [] chronological) = Some a ->
  symbol a = sym /\
  days a = List.length (contributionsOf sym chronological) /\
  sumVolume a = runningSum volumeOf (contributionsOf sym chronological) /\
  sumTradedValue a
  = runningSum tradedValueOf (contributionsOf sym chronological) /\
  sumMFVolume a = runningSum mfvOf (contributionsOf sym chronological) /\
  cmfOf a
  = runningSum mfvOf (contributionsOf sym chronological)
    / runningSum volumeOf (contributionsOf sym chronological).
Proof.
  intros Hnd Hget.
  pose proof (foldDays_totals chronological sym Hnd) as Htot.
  pose proof (foldDays_tracks chronological sym Hnd) as Htr.
  rewrite Hget in Htot, Htr. cbn [totals tracks] in Htot, Htr.
  destruct Htot as (Hsym & Hv & Ht & Hm).
  destruct Htr as (Hne & _ & _ & Hdays).
  repeat split; try assumption.
  assert (Hpos : 0 < sumVolume a).
  { rewrite Hv. apply runningSum_volume_pos; [|assumption].
    apply contributionsOf_contribute. }
  rewrite (cmfOf_unguarded a Hpos). now rewrite Hv, Hm.
Qed.

Lemma accumulator_is_sum_of_contributions_witness :
  Forall (fun m => NoDup (map_keys m)) [scenarioDay1; scenarioDay2] /\
  map_get "ABC" (foldDays [] [scenarioDay1; scenarioDay2]) = Some scenarioABC /\
  days scenarioABC = 2%nat /\
  sumVolume scenarioABC = 0 + 1000 + 2000 /\
  cmfOf scenarioABC == 7 # 10.
Proof.
  assert (Hnd : Forall (fun m => NoDup (map_keys m))
                  [scenarioDay1; scenarioDay2])
    by (repeat constructor; simpl; tauto).
  assert (Hget : map_get "ABC" (foldDays [] [scenarioDay1; scenarioDay2])
                 = Some scenarioABC) by reflexivity.
  split; [exact Hnd|]. split; [exact Hget|].
  destruct (accumulator_is_sum_of_contributions
              [scenarioDay1; scenarioDay2] "ABC" scenarioABC Hnd Hget)
    as (_ & Hdays & Hv & _ & _ & Hcmf).
  split; [exact Hdays|]. split; [exact Hv|].
  rewrite Hcmf. reflexivity.
Defined.

(** X5. After folding sessions that have one row per symbol, a symbol has
    an accumulator exactly when one of its rows got past the check.  That
    accumulator then counts at least one day, has a volume above zero, and
    has both closes set; the guard of the CMF on a zero volume is never
    taken: the CMF is the money-flow sum divided by the volume. *)
Theorem accumulator_exists_iff_contributed
  (chronological : list (JsMap Row)) (sym : string) :
  Forall (fun m => NoDup (map_keys m)) chronological ->
  (map_get sym (foldDays [] chronological) = None <->
   contributionsOf sym chronological = []) /\
  (forall a,
     map_get sym (foldDays [] chronological) = Some a ->
     (1 <= days a)%nat /\
     0 < sumVolume a /\
     (exists f l, firstClose a = Some f /\ lastClose a = Some l) /\
     cmfOf a = sumMFVolume a / sumVolume a).
Proof.
  intros Hnd.
  pose proof (foldDays_totals chronological sym Hnd) as Htot.
  pose proof (foldDays_tracks chronological sym Hnd) as Htr.
  split.
  - destruct (map_get sym (foldDays [] chronological)) as [a|];
      cbn [tracks] in Htr.
    + split; [discriminate|]. intros Hnil. tauto.
    + tauto.
  - intros a Hget. rewrite Hget in Htot, Htr. cbn [totals tracks] in Htot, Htr.
    destruct Htot as (_ & Hv & _ & _).
    destruct Htr as (Hne & Hfirst & Hlast & Hdays).
    assert (Hpos : 0 < sumVolume a).
    { rewrite Hv. apply runningSum_volume_pos; [|assumption].
      apply contributionsOf_contribute. }
    split; [|split; [exact Hpos|split; [|now apply cmfOf_unguarded]]].
    + rewrite Hdays.
      destruct (contributionsOf sym chronological); [contradiction|simpl; lia].
    + rewrite Hfirst, Hlast.
      destruct (contributionsOf sym chronological) as [|r rows] eqn:E;
        [contradiction|].
      assert (Hrev : rev (r :: rows) <> [])
        by (intros Hnil; apply (f_equal (@List.length Row)) in Hnil;
            rewrite length_rev in Hnil; discriminate).
      destruct (rev (r :: rows)) as [|r' rows']; [contradiction|].
      simpl. eauto.
Qed.

Lemma accumulator_exists_iff_contributed_witness :
  Forall (fun m => NoDup (map_keys m)) [scenarioDay1; scenarioDay2] /\
  map_get "XYZ" (foldDays [] [scenarioDay1; scenarioDay2]) = None /\
  0 < sumVolume scenarioABC.
Proof.
  assert (Hnd : Forall (fun m => NoDup (map_keys m))
                  [scenarioDay1; scenarioDay2])
    by (repeat constructor; simpl; tauto).
  split; [exact Hnd|].
  destruct (accumulator_exists_iff_contributed
              [scenarioDay1; scenarioDay2] "XYZ" Hnd) as [Hnone _].
  split; [apply Hnone; reflexivity|].
  destruct (accumulator_exists_iff_contributed
              [scenarioDay1; scenarioDay2] "ABC" Hnd) as [_ Hsome].
  destruct (Hsome scenarioABC eq_refl) as (_ & Hpos & _). exact Hpos.
Defined.

(** X6. Which symbols have an accumulator, and how many days each of them
    counts, does not depend on the order in which the sessions are folded:
    folding the same sessions in another order gives an accumulator to the
    same symbols, with the same day counts, so that the same symbols meet
    the floor on the days. *)
Theorem day_counts_do_not_depend_on_session_order
  (chronological reordered : list (JsMap Row)) (sym : string) :
  Forall (fun m => NoDup (map_keys m)) chronological ->
  Permutation chronological reordered ->
  option_map days (map_get sym (foldDays [] reordered))
  = option_map days (map_get sym (foldDays [] chronological)) /\
  (forall sessions : nat,
     option_map (qualifies sessions) (map_get sym (foldDays [] reordered))
     = option_map (qualifies sessions)
         (map_get sym (foldDays [] chronological))).
Proof.
  intros Hnd Hperm.
  assert (Hnd' : Forall (fun m => NoDup (map_keys m)) reordered)
    by (eapply Permutation_Forall; eassumption).
  assert (Hrows : Permutation (contributionsOf sym chronological)
                    (contributionsOf sym reordered))
    by (unfold contributionsOf; now apply Permutation_flat_map).
  pose proof (foldDays_tracks chronological sym Hnd) as Htr.
  pose proof (foldDays_tracks reordered sym Hnd') as Htr'.
  destruct (map_get sym (foldDays [] chronological)) as [a|];
    destruct (map_get sym (foldDays [] reordered)) as [a'|];
    cbn [tracks option_map] in *.
  - destruct Htr as (_ & _ & _ & Hdays). destruct Htr' as (_ & _ & _ & Hdays').
    assert (E : days a' = days a)
      by (rewrite Hdays, Hdays'; symmetry; now apply Permutation_length).
    split; [now rewrite E|]. intros sessions. unfold qualifies. now rewrite E.
  - destruct Htr as (Hne & _). rewrite Htr' in Hrows.
    apply Permutation_sym, Permutation_nil in Hrows. contradiction.
  - destruct Htr' as (Hne & _). rewrite Htr in Hrows.
    apply Permutation_nil in Hrows. contradiction.
  - split; reflexivity.
Qed.

Lemma day_counts_do_not_depend_on_session_order_witness :
  Forall (fun m => NoDup (map_keys m)) [scenarioDay1; scenarioDay2] /\
  Permutation [scenarioDay1; scenarioDay2] [scenarioDay2; scenarioDay1] /\
  option_map days (map_get "ABC" (foldDays [] [scenarioDay2; scenarioDay1]))
  = Some 2%nat /\
  option_map firstClose
    (map_get "ABC" (foldDays [] [scenarioDay2; scenarioDay1]))
  <> option_map firstClose
       (map_get "ABC" (foldDays [] [scenarioDay1; scenarioDay2])).
Proof.
  assert (Hnd : Forall (fun m => NoDup (map_keys m))
                  [scenarioDay1; scenarioDay2])
    by (repeat constructor; simpl; tauto).
  assert (Hperm : Permutation [scenarioDay1; scenarioDay2]
                    [scenarioDay2; scenarioDay1]) by apply perm_swap.
  split; [exact Hnd|]. split; [exact Hperm|].
  destruct (day_counts_do_not_depend_on_session_order
              [scenarioDay1; scenarioDay2] [scenarioDay2; scenarioDay1]
              "ABC" Hnd Hperm) as [Hdays _].
  split; [rewrite Hdays; reflexivity|].
  vm_compute. discriminate.
Defined.

(** ** What the ranker returns *)

(** Dropping accumulators keeps their symbols distinct. *)
Lemma filter_symbols_NoDup (keep : Aggregated -> bool)
  (accs : list Aggregated) :
  NoDup (map symbol accs) -> NoDup (map symbol (filter keep accs)).
Proof.
  intros Hnd. induction accs as [|a accs IH]; [exact Hnd|].
  cbn [map filter] in *. inversion Hnd as [|? ? Hnotin Hnd']; subst.
  destruct (keep a); cbn [map]; [|auto].
  constructor; [|auto].
  intros Hin. apply Hnotin. apply in_map_iff in Hin.
  destruct Hin as (a' & Ha' & Hin). apply filter_In in Hin.
  rewrite <- Ha'. apply in_map. tauto.
Qed.

Lemma NoDup_firstn {A : Type} (n : nat) (l : list A) :
  NoDup l -> NoDup (firstn n l).
Proof.
  revert l. induction n as [|n IH]; intros [|x l] Hnd; simpl;
    try constructor.
  - inversion Hnd as [|? ? Hnotin _]; subst.
    intros Hin. apply Hnotin. now apply (firstn_In n).
  - inversion Hnd; subst. auto.
Qed.

Lemma keyed_symbols (agg : JsMap Aggregated) :
  keyed agg -> NoDup (map symbol (map_values agg)).
Proof.
  intros [Hnd Hsym]. unfold map_values. rewrite map_map.
  replace (map (fun e => symbol (snd e)) agg) with (map_keys agg);
    [assumption|].
  unfold map_keys. apply map_ext_in. intros e He.
  rewrite Forall_forall in Hsym. symmetry. now apply Hsym.
Qed.

(** A row of [topStocks] is the row of the accumulator of its symbol, and
    that accumulator meets the floor. *)
Lemma topStocks_row (log10 : Q -> Q) (dailyMaps : list (JsMap Row))
  (x : StockRow.t) :
  In x (topStocks log10 (List.length dailyMaps) (aggregate dailyMaps)) ->
  exists a : Aggregated,
    map_get (StockRow.symbol x) (aggregate dailyMaps) = Some a /\
    (coverageFloor (List.length dailyMaps) <= days a)%nat /\
    x = toStockRow a.
Proof.
  intros Hx. apply topStocks_In in Hx. destruct Hx as (a & Hin & Hq & ->).
  exists a. split; [|split; [|reflexivity]].
  - apply keyed_values; [apply aggregate_keyed|assumption].
  - unfold qualifies in Hq. now apply Nat.leb_le in Hq.
Qed.

(** X7. No symbol appears twice in [topStocks], and there are at most ten
    rows. *)
Theorem topStocks_symbols_are_distinct
  (log10 : Q -> Q) (sessions : nat) (dailyMaps : list (JsMap Row)) :
  NoDup (map StockRow.symbol
           (topStocks log10 sessions (aggregate dailyMaps))) /\
  (List.length (topStocks log10 sessions (aggregate dailyMaps)) <= 10)%nat.
Proof.
  split.
  - unfold topStocks. rewrite <- firstn_map. apply NoDup_firstn.
    apply (Permutation_NoDup
             (l := map StockRow.symbol (results sessions (aggregate dailyMaps)))).
    + apply Permutation_map. symmetry. apply sort_perm.
    + unfold results. rewrite map_map. cbn [toStockRow StockRow.symbol].
      apply filter_symbols_NoDup, keyed_symbols, aggregate_keyed.
  - unfold topStocks. apply firstn_le_length.
Qed.

(** X8. On a successful run over [n] sessions every row of [topStocks] has
    a day count of exactly [n]: the symbol had a row past the check in
    every session retrieved.  With fewer than three sessions [topStocks] is
    empty. *)
Theorem topStocks_traded_in_every_session
  (log10 : Q -> Q) (fetch : Date -> FetchOutcome) (today : Date)
  (n : nat) (top : list StockRow.t) :
  POST log10 fetch today = mkResponse 200 (AnalysisBody n top) ->
  (forall x, In x top -> StockRow.daysCount x = n) /\
  ((n < 3)%nat -> top = []).
Proof.
  intros HPOST. unfold POST in HPOST.
  set (found := dailyMaps (locate fetch today)) in *.
  destruct (List.length found =? 0)%nat; [discriminate|].
  injection HPOST as <- <-.
  assert (Hrow : forall x,
            In x (topStocks log10 (List.length found) (aggregate found)) ->
            StockRow.daysCount x = List.length found /\
            (3 <= List.length found)%nat).
  { intros x Hx. apply topStocks_row in Hx.
    destruct Hx as (a & Hget & Hfloor & ->). cbn [toStockRow StockRow.daysCount].
    assert (Hle : (days a <= List.length (rev found))%nat).
    { apply (foldDays_days (rev found) (symbol a)); [|exact Hget].
      apply Forall_rev, locate_NoDup. }
    rewrite length_rev in Hle. unfold coverageFloor in Hfloor.
    destruct (locate_spec fetch today) as (? & _ & _ & _ & _ & Hfive).
    fold found in Hfive. lia. }
  split.
  - intros x Hx. now apply Hrow.
  - intros Hlt.
    destruct (topStocks log10 (List.length found) (aggregate found))
      as [|x top] eqn:E; [reflexivity|].
    destruct (Hrow x (or_introl eq_refl)). lia.
Qed.

Lemma topStocks_traded_in_every_session_witness :
  POST (fun _ => 0) coverageArchive 2%Z
  = mkResponse 200 (AnalysisBody 3 [coverageABC]) /\
  StockRow.daysCount coverageABC = 3%nat.
Proof.
  assert (HPOST : POST (fun _ => 0) coverageArchive 2%Z
                  = mkResponse 200 (AnalysisBody 3 [coverageABC]))
    by (vm_compute; reflexivity).
  split; [exact HPOST|].
  destruct (topStocks_traded_in_every_session
              (fun _ => 0) coverageArchive 2%Z 3%nat [coverageABC] HPOST)
    as [Hall _].
  apply Hall. left. reflexivity.
Defined.

(** ** The archive of a date *)

Lemma zrange_In (n : nat) :
  forall (start x : Z),
    In x (zrange n start) <-> (start <= x < start + Z.of_nat n)%Z.
Proof.
  induction n as [|n IH]; intros start x.
  - simpl. lia.
  - cbn [zrange In]. rewrite IH. lia.
Qed.

Lemma cycleDays_ok :
  forallb cycleDayOk (zrange (Z.to_nat 146097) 0) = true.
Proof. vm_compute. reflexivity. Qed.

Lemma civilOfCycleDay_era (era doe : Z) :
  civilOfCycleDay era doe =
  (fst (fst (civilOfCycleDay 0 doe)) + 400 * era,
   snd (fst (civilOfCycleDay 0 doe)),
   snd (civilOfCycleDay 0 doe))%Z.
Proof.
  unfold civilOfCycleDay. cbv zeta. cbn [fst snd].
  match goal with |- context [(?m <=? 2)%Z] => destruct (m <=? 2)%Z end;
    f_equal; f_equal; ring.
Qed.

Lemma daysFromCivil_era (y m dd era : Z) :
  daysFromCivil (y + 400 * era) m dd
  = (daysFromCivil y m dd + 146097 * era)%Z.
Proof.
  unfold daysFromCivil. cbv zeta.
  set (y0 := (if (m <=? 2)%Z then (y - 1)%Z else y)).
  replace (if (m <=? 2)%Z then (y + 400 * era - 1)%Z else (y + 400 * era)%Z)
    with (y0 + era * 400)%Z
    by (unfold y0; destruct (m <=? 2)%Z; ring).
  rewrite Z.div_add by lia.
  replace (y0 + era * 400 - (y0 / 400 + era) * 400)%Z
    with (y0 - y0 / 400 * 400)%Z by ring.
  ring.
Qed.

(** The day number of the date of a day is that day, and the date has a
    month from 1 to 12 and a day of the month from 1 to 31. *)
Lemma civil_roundtrip (d : Date) :
  daysFromCivil (yearOf d) (monthOf d) (dateOf d) = d /\
  (1 <= monthOf d <= 12)%Z /\
  (1 <= dateOf d <= 31)%Z.
Proof.
  unfold yearOf, monthOf, dateOf, civil. cbv zeta.
  set (z := (d + 719468)%Z).
  assert (Hdoe : (0 <= z mod 146097 < 146097)%Z) by (apply Z.mod_pos_bound; lia).
  pose proof (Z.div_mod z 146097 ltac:(lia)) as Hz.
  rewrite civilOfCycleDay_era. cbn [fst snd].
  rewrite daysFromCivil_era.
  assert (Hok : cycleDayOk (z mod 146097) = true).
  { pose proof cycleDays_ok as Hall. rewrite forallb_forall in Hall.
    apply Hall, zrange_In. lia. }
  unfold cycleDayOk in Hok.
  destruct (civilOfCycleDay 0 (z mod 146097)) as [[y m] dd]. cbn [fst snd].
  rewrite !andb_true_iff, Z.eqb_eq, !Z.leb_le in Hok.
  unfold z in *. lia.
Qed.

Lemma civil_injective (d1 d2 : Date) :
  yearOf d1 = yearOf d2 -> monthOf d1 = monthOf d2 -> dateOf d1 = dateOf d2 ->
  d1 = d2.
Proof.
  intros Hy Hm Hd.
  destruct (civil_roundtrip d1) as [<- _].
  destruct (civil_roundtrip d2) as [<- _].
  now rewrite Hy, Hm, Hd.
Qed.

Lemma append_inj_length (s1 s2 t1 t2 : string) :
  String.length s1 = String.length s2 ->
  (s1 ++ t1 = s2 ++ t2)%string -> s1 = s2 /\ t1 = t2.
Proof.
  revert s2. induction s1 as [|c s1 IH]; intros [|c' s2] Hlen Heq;
    try discriminate.
  - now split.
  - simpl in Heq, Hlen. injection Heq as -> Heq. injection Hlen as Hlen.
    destruct (IH s2 Hlen Heq) as [-> ->]. now split.
Qed.

Lemma string_app_assoc (s t u : string) :
  ((s ++ t) ++ u = s ++ (t ++ u))%string.
Proof.
  induction s as [|c s IH]; simpl; [reflexivity|]. now rewrite IH.
Qed.

Lemma toUpperCase_app (s t : string) :
  toUpperCase (s ++ t) = (toUpperCase s ++ toUpperCase t)%string.
Proof.
  induction s as [|c s IH]; simpl; [reflexivity|]. now rewrite IH.
Qed.

Lemma yearTexts_ok :
  forallb (fun y => (digitsValue (yearText y) =? y)%Z
                    && (String.length (yearText y) =? 4)%nat)
    (zrange (Z.to_nat 10000) 0) = true.
Proof. vm_compute. reflexivity. Qed.

Lemma monthTexts_ok :
  forallb (fun m => (monthOfText (monthText m) =? m)%Z
                    && (String.length (monthText m) =? 3)%nat)
    (zrange 12 1) = true.
Proof. vm_compute. reflexivity. Qed.

Lemma dayTexts_ok :
  forallb (fun dd => (digitsValue (dayText dd) =? dd)%Z
                     && (String.length (dayText dd) =? 2)%nat)
    (zrange 31 1) = true.
Proof. vm_compute. reflexivity. Qed.

Lemma yearText_spec (y : Z) :
  (0 <= y <= 9999)%Z ->
  digitsValue (yearText y) = y /\ String.length (yearText y) = 4%nat.
Proof.
  intros Hy. pose proof yearTexts_ok as Hall. rewrite forallb_forall in Hall.
  specialize (Hall y). rewrite andb_true_iff, Z.eqb_eq, Nat.eqb_eq in Hall.
  apply Hall, zrange_In. lia.
Qed.

Lemma monthText_spec (m : Z) :
  (1 <= m <= 12)%Z ->
  monthOfText (monthText m) = m /\ String.length (monthText m) = 3%nat.
Proof.
  intros Hm. pose proof monthTexts_ok as Hall. rewrite forallb_forall in Hall.
  specialize (Hall m). rewrite andb_true_iff, Z.eqb_eq, Nat.eqb_eq in Hall.
  apply Hall, zrange_In. lia.
Qed.

Lemma dayText_spec (dd : Z) :
  (1 <= dd <= 31)%Z ->
  digitsValue (dayText dd) = dd /\ String.length (dayText dd) = 2%nat.
Proof.
  intros Hd. pose proof dayTexts_ok as Hall. rewrite forallb_forall in Hall.
  specialize (Hall dd). rewrite andb_true_iff, Z.eqb_eq, Nat.eqb_eq in Hall.
  apply Hall, zrange_In. lia.
Qed.

(** The address as the root, the year, the month and the day texts. *)
Lemma buildArchiveUrl_parts (d : Date) :
  buildArchiveUrl d =
  (archiveRoot ++ yearText (yearOf d) ++ "/" ++ monthText (monthOf d)
   ++ "/cm" ++ dayText (dateOf d) ++ monthText (monthOf d)
   ++ toUpperCase (yearText (yearOf d)) ++ "bhav.csv.zip")%string.
Proof.
  unfold buildArchiveUrl, formatDDMMMYYYY. cbv zeta.
  rewrite !toUpperCase_app.
  unfold formatYYYY, formatMMM, formatDD, yearText, monthText, dayText.
  now rewrite !string_app_assoc.
Qed.

Lemma buildArchiveUrl_inj (d1 d2 : Date) :
  (0 <= yearOf d1 <= 9999)%Z -> (0 <= yearOf d2 <= 9999)%Z ->
  buildArchiveUrl d1 = buildArchiveUrl d2 -> d1 = d2.
Proof.
  intros Hy1 Hy2 Heq. rewrite !buildArchiveUrl_parts in Heq.
  destruct (civil_roundtrip d1) as (_ & Hm1 & Hd1).
  destruct (civil_roundtrip d2) as (_ & Hm2 & Hd2).
  destruct (yearText_spec _ Hy1) as [Vy1 Ly1].
  destruct (yearText_spec _ Hy2) as [Vy2 Ly2].
  destruct (monthText_spec _ Hm1) as [Vm1 Lm1].
  destruct (monthText_spec _ Hm2) as [Vm2 Lm2].
  destruct (dayText_spec _ Hd1) as [Vd1 Ld1].
  destruct (dayText_spec _ Hd2) as [Vd2 Ld2].
  apply append_inj_length in Heq; [|reflexivity]. destruct Heq as [_ Heq].
  apply append_inj_length in Heq; [|congruence]. destruct Heq as [Ey Heq].
  apply append_inj_length in Heq; [|reflexivity]. destruct Heq as [_ Heq].
  apply append_inj_length in Heq; [|congruence]. destruct Heq as [Em Heq].
  apply append_inj_length in Heq; [|reflexivity]. destruct Heq as [_ Heq].
  apply append_inj_length in Heq; [|congruence]. destruct Heq as [Ed _].
  apply civil_injective; congruence.
Qed.

(** X9. Two dates of the years 0 to 9999 that have the same archive
    address are the same date: no two days share an archive. *)
Theorem archive_address_determines_the_date (d1 d2 : Date) :
  (0 <= yearOf d1 <= 9999)%Z -> (0 <= yearOf d2 <= 9999)%Z ->
  buildArchiveUrl d1 = buildArchiveUrl d2 -> d1 = d2.
Proof. apply buildArchiveUrl_inj. Qed.

Lemma archive_address_determines_the_date_witness :
  (0 <= yearOf 19727 <= 9999)%Z /\
  buildArchiveUrl 19727%Z
  = "https://archives.nseindia.com/content/historical/EQUITIES/2024/JAN/cm05JAN2024bhav.csv.zip"%string /\
  (19727 = 19727)%Z.
Proof.
  assert (Hy : (0 <= yearOf 19727 <= 9999)%Z)
    by (vm_compute; split; discriminate).
  split; [exact Hy|]. split; [reflexivity|].
  exact (archive_address_determines_the_date 19727%Z 19727%Z Hy Hy eq_refl).
Defined.

(** ** The fetcher *)

Lemma buildDayMap_nonempty (records : list Row) :
  (0 < map_size (buildDayMap records))%nat <->
  exists r, In r records /\ SERIES r = "EQ"%string.
Proof.
  split.
  - intros Hpos. destruct (buildDayMap records) as [|[k r] m] eqn:E;
      [simpl in Hpos; lia|].
    exists r. assert (Hin : In (k, r) (buildDayMap records))
      by (rewrite E; now left).
    apply buildDayMap_entries in Hin. tauto.
  - intros (r & Hin & Heq).
    assert (Hget : map_get (SYMBOL r) (buildDayMap records) <> None).
    { unfold buildDayMap. rewrite buildDayMap_from.
      destruct (find (eqRowOf (SYMBOL r)) (rev records)) eqn:E;
        [discriminate|].
      apply in_rev in Hin. apply (find_none _ _ E r) in Hin as Hr.
      unfold eqRowOf in Hr.
      rewrite Heq, !String.eqb_refl in Hr. discriminate. }
    destruct (buildDayMap records); [now elim Hget|simpl; lia].
Qed.

Lemma indexEntries_named {V : Type} (entries : list (string * V)) :
  Forall (fun e => arrayIndex (fst e) = None) entries ->
  indexEntries entries = [] /\ namedEntries entries = entries.
Proof.
  induction 1 as [|[k v] entries Hk _ [IHi IHn]]; [now split|].
  cbn [fst] in Hk. unfold namedEntries in *.
  cbn [indexEntries filter fst]. rewrite Hk. split; [exact IHi|].
  now rewrite IHn.
Qed.

(** X10. A date yields a session exactly when it is a weekday and every
    stage succeeds: the request returns a response that is [ok], whose body
    arrives, whose archive opens, the first of [Object.values(zip.files)]
    reads as text, the text parses, and a parsed record has series [EQ];
    the session is the map of those records, and the other values are not
    looked at.  The first value is the first member of the archive when no
    member name is an array index; a member named [1] comes before a
    report that precedes it in the archive. *)
Theorem session_requires_every_stage
  (httpFetch : string -> list (string * string) -> Completion HttpResponse)
  (loadAsync : list Byte.byte -> Completion (list (string * Completion string)))
  (csvParse : string -> Completion (list Row))
  (d : Date) (m : JsMap Row) :
  (sessionAt (fetchDate httpFetch (zipFileValues loadAsync) csvParse) d
   = Some m <->
   isWeekend d = false /\
   exists res buf files csvText rest records,
     httpFetch (buildArchiveUrl d) requestHeaders = Returns res /\
     ok res = true /\
     arrayBuffer res = Returns buf /\
     loadAsync buf = Returns files /\
     objectValues files = Returns csvText :: rest /\
     csvParse csvText = Returns records /\
     m = buildDayMap records /\
     exists r, In r records /\ SERIES r = "EQ"%string) /\
  (forall files : list (string * Completion string),
     Forall (fun e => arrayIndex (fst e) = None) files ->
     objectValues files = map snd files) /\
  objectValues twoMemberArchive = [Returns "other"; Returns "report"]%string.
Proof.
  split; [|split].
  - unfold sessionAt, fetchDate, fetchZipCsvBuffer, unzipFirstCsv,
      zipFileValues. cbv zeta.
    destruct (isWeekend d);
      [split; [discriminate|intros [? _]; discriminate]|].
    split.
    + destruct (httpFetch (buildArchiveUrl d) requestHeaders) as [res|];
        [|discriminate].
      destruct (ok res) eqn:Hok; [|discriminate]. cbn [negb].
      destruct (arrayBuffer res) as [buf|] eqn:Hbuf; [|discriminate].
      destruct (loadAsync buf) as [files|] eqn:Hzip; [|discriminate].
      destruct (objectValues files) as [|[csvText|] rest] eqn:Hvalues;
        try discriminate.
      destruct (csvParse csvText) as [records|] eqn:Hcsv; [|discriminate].
      destruct (0 <? map_size (buildDayMap records))%nat eqn:Hsize;
        [|discriminate].
      intros [= <-]. split; [reflexivity|].
      exists res, buf, files, csvText, rest, records.
      repeat split; try assumption.
      apply buildDayMap_nonempty. now apply Nat.ltb_lt.
    + intros (_ & res & buf & files & csvText & rest & records
              & -> & Hok & Hbuf & Hzip & Hvalues & Hcsv & -> & Hrow).
      rewrite Hok. cbn [negb]. rewrite Hbuf, Hzip, Hvalues, Hcsv.
      apply buildDayMap_nonempty, Nat.ltb_lt in Hrow. now rewrite Hrow.
  - intros files Hnamed. unfold objectValues.
    destruct (indexEntries_named files Hnamed) as [-> ->]. reflexivity.
  - reflexivity.
Qed.

Lemma session_requires_every_stage_witness :
  sessionAt
    (fetchDate alwaysOk (zipFileValues (fun _ => Returns twoMemberArchive))
       parseReport) 1%Z
  = None /\
  sessionAt
    (fetchDate alwaysOk
       (zipFileValues (fun _ => Returns (rev twoMemberArchive))) parseReport)
    1%Z
  = None /\
  sessionAt
    (fetchDate alwaysOk
       (zipFileValues
          (fun _ =>
             Returns [("cm01JAN1970bhav.csv", Returns "report")]%string))
       parseReport) 1%Z
  = Some (buildDayMap [eqRow "ABC" "110" "90" "105" "1000" "105000"]).
Proof.
  split; [reflexivity|]. split; [reflexivity|].
  apply (proj1 (session_requires_every_stage alwaysOk
                  (fun _ => Returns
                     [("cm01JAN1970bhav.csv", Returns "report")]%string)
                  parseReport 1%Z _)).
  split; [reflexivity|].
  exists (mkHttpResponse true (Returns [])), [],
         [("cm01JAN1970bhav.csv", Returns "report")]%string,
         "report"%string, [],
         [eqRow "ABC" "110" "90" "105" "1000" "105000"].
  repeat split; try reflexivity.
  exists (eqRow "ABC" "110" "90" "105" "1000" "105000").
  split; [now left|reflexivity].
Defined.

Lemma locateLoop_window (fetch fetch' : Date -> FetchOutcome) (today : Date)
  (fuel : nat) :
  forall st,
    (forall d, (cursor st - Z.of_nat fuel <= d < cursor st)%Z ->
               sessionAt fetch d = sessionAt fetch' d) ->
    locateLoop fetch today fuel st = locateLoop fetch' today fuel st.
Proof.
  induction fuel as [|fuel IH]; intros st Hext; [reflexivity|].
  cbn [locateLoop]. destruct (loopCondition today st); [|reflexivity].
  assert (Hbody : loopBody fetch st = loopBody fetch' st)
    by (rewrite !loopBody_sessionAt, Hext by lia; reflexivity).
  rewrite <- Hbody. apply IH. intros d Hd. apply Hext.
  rewrite loopBody_cursor in Hd. lia.
Qed.

(** The response depends on the archive through the weekdays among the
    eighteen days before today only. *)
Lemma POST_window (log10 : Q -> Q) (fetch fetch' : Date -> FetchOutcome)
  (today : Date) :
  (forall d, (today - 18 <= d < today)%Z -> isWeekend d = false ->
             fetch d = fetch' d) ->
  POST log10 fetch today = POST log10 fetch' today.
Proof.
  intros Hext. unfold POST, locate.
  rewrite (locateLoop_window fetch fetch' today 18); [reflexivity|].
  intros d Hd. cbn [cursor initialState] in Hd. unfold sessionAt.
  destruct (isWeekend d) eqn:E; [reflexivity|].
  rewrite Hext; [reflexivity|lia|assumption].
Qed.

(** X11. A run asks the network for the archives of the weekdays among the
    eighteen days before today and for nothing else: what the network
    would answer at any other address, the archive of today, of a weekend
    day or of an older day included, has no effect on the response. *)
Theorem run_reads_only_the_window_weekdays
  (log10 : Q -> Q)
  (httpFetch httpFetch' :
     string -> list (string * string) -> Completion HttpResponse)
  (loadZip : list Byte.byte -> Completion (list (Completion string)))
  (csvParse : string -> Completion (list Row))
  (today : Date) :
  (forall d, (today - 18 <= d < today)%Z -> isWeekend d = false ->
             httpFetch (buildArchiveUrl d) requestHeaders
             = httpFetch' (buildArchiveUrl d) requestHeaders) ->
  POST log10 (fetchDate httpFetch loadZip csvParse) today
  = POST log10 (fetchDate httpFetch' loadZip csvParse) today.
Proof.
  intros Hext. apply POST_window. intros d Hd Hweek.
  unfold fetchDate, fetchZipCsvBuffer. cbv zeta.
  now rewrite (Hext d Hd Hweek).
Qed.

Lemma run_reads_only_the_window_weekdays_witness :
  (forall d, (2 - 18 <= d < 2)%Z -> isWeekend d = false ->
             offline (buildArchiveUrl d) requestHeaders
             = onlyToday (buildArchiveUrl d) requestHeaders) /\
  offline (buildArchiveUrl 2%Z) requestHeaders
  <> onlyToday (buildArchiveUrl 2%Z) requestHeaders /\
  POST (fun _ => 0) (fetchDate offline (fun _ => Throws "") (fun _ => Throws ""))
    2%Z
  = POST (fun _ => 0)
      (fetchDate onlyToday (fun _ => Throws "") (fun _ => Throws "")) 2%Z.
Proof.
  assert (Hother : forallb
            (fun d => negb (String.eqb (buildArchiveUrl d) (buildArchiveUrl 2%Z)))
            (zrange 18 (-16)%Z) = true) by (vm_compute; reflexivity).
  assert (Hext : forall d, (2 - 18 <= d < 2)%Z -> isWeekend d = false ->
                   offline (buildArchiveUrl d) requestHeaders
                   = onlyToday (buildArchiveUrl d) requestHeaders).
  { intros d Hd _. rewrite forallb_forall in Hother.
    specialize (Hother d). rewrite negb_true_iff in Hother.
    unfold onlyToday, offline. rewrite Hother; [reflexivity|].
    apply zrange_In. lia. }
  split; [exact Hext|]. split; [vm_compute; discriminate|].
  exact (run_reads_only_the_window_weekdays (fun _ => 0) offline onlyToday
           (fun _ => Throws "") (fun _ => Throws "") 2%Z Hext).
Defined.

(** ** The page *)

Lemma messageOrFailed_nonempty (message : string) :
  messageOrFailed message <> ""%string.
Proof.
  unfold messageOrFailed.
  destruct (String.eqb message "") eqn:E; [discriminate|].
  now apply String.eqb_neq in E.
Qed.

(** X12. While the request is under way the page is loading and shows
    neither rows nor an error.  When [runAnalysis] has finished the page is
    not loading, and what it shows depends on the reply alone, not on what
    it showed before: after a request that is rejected, the message of the
    rejection, or [Failed] when that is empty, and no rows; after a reply
    whose status is outside 200 to 299, [Request failed: ] followed by the
    status, and no rows; after a reply in that range whose body does not
    read as JSON, the message of that failure and no rows; after a reply in
    that range with [topStocks], those rows and no error; after a reply in
    that range with an error body, neither rows nor an error.  It never
    shows both, and never an empty error. *)
Theorem runAnalysis_end_states (s : PageState) :
  runAnalysisStart s = mkPageState true None None /\
  (forall message,
     runAnalysis (FetchRejects message) s
     = mkPageState false None (Some (messageOrFailed message))) /\
  (forall status json,
     replyOk status = false ->
     runAnalysis (Replies status json) s
     = mkPageState false None
         (Some ("Request failed: " ++ decimal (Z.of_nat status))%string)) /\
  (forall status message,
     replyOk status = true ->
     runAnalysis (Replies status (Throws message)) s
     = mkPageState false None (Some (messageOrFailed message))) /\
  (forall status daysAnalyzed top,
     replyOk status = true ->
     runAnalysis (Replies status (Returns (AnalysisBody daysAnalyzed top))) s
     = mkPageState false (Some top) None) /\
  (forall status message,
     replyOk status = true ->
     runAnalysis (Replies status (Returns (ErrorBody message))) s
     = mkPageState false None None) /\
  (forall reply,
     (rows (runAnalysis reply s) = None \/ error (runAnalysis reply s) = None) /\
     error (runAnalysis reply s) <> Some ""%string /\
     forall s', runAnalysis reply s' = runAnalysis reply s).
Proof.
  unfold runAnalysis, runAnalysisStart. cbv zeta. cbn [loading rows error].
  split; [reflexivity|]. split; [reflexivity|].
  split; [|split; [|split; [|split]]].
  - intros status json Hok. cbn [requestRows]. rewrite Hok. reflexivity.
  - intros status message Hok. cbn [requestRows]. rewrite Hok. reflexivity.
  - intros status daysAnalyzed top Hok. cbn [requestRows]. rewrite Hok.
    reflexivity.
  - intros status message Hok. cbn [requestRows]. rewrite Hok. reflexivity.
  - intros reply.
    destruct (requestRows reply) as [top|message]; cbn [loading rows error].
    + split; [now right|]. split; [discriminate|reflexivity].
    + split; [now left|]. split; [|reflexivity].
      intros [= E]. now apply (messageOrFailed_nonempty message).
Qed.

Lemma runAnalysis_end_states_witness :
  replyOk 502 = false /\
  replyOk 200 = true /\
  runAnalysis (Replies 502 (Returns (ErrorBody noSessionsMessage)))
    (mkPageState false (Some []) None)
  = mkPageState false None (Some "Request failed: 502"%string) /\
  runAnalysis (Replies 200 (Returns (ErrorBody noSessionsMessage)))
    (mkPageState false (Some []) None)
  = mkPageState false None None.
Proof.
  destruct (runAnalysis_end_states (mkPageState false (Some []) None))
    as (_ & _ & Hstatus & _ & _ & Hbody & _).
  split; [reflexivity|]. split; [reflexivity|].
  split.
  - exact (Hstatus 502%nat (Returns (ErrorBody noSessionsMessage)) eq_refl).
  - exact (Hbody 200%nat noSessionsMessage eq_refl).
Defined.

(** X13. The page against the handler.  When the locator finds no session
    the page ends up showing the error [Request failed: 502] and no rows:
    the message the handler sends with that status is never shown.  When
    it finds one the page shows the [topStocks] of the run and no error. *)
Theorem page_shows_topStocks_or_request_failed
  (log10 : Q -> Q) (fetch : Date -> FetchOutcome) (today : Date)
  (s : PageState) :
  (dailyMaps (locate fetch today) = [] ->
   runAnalysis (replyOf (POST log10 fetch today)) s
   = mkPageState false None (Some "Request failed: 502"%string)) /\
  (dailyMaps (locate fetch today) <> [] ->
   runAnalysis (replyOf (POST log10 fetch today)) s
   = mkPageState false
       (Some (topStocks log10 (List.length (dailyMaps (locate fetch today)))
                (aggregate (dailyMaps (locate fetch today)))))
       None) /\
  error (runAnalysis (replyOf (POST log10 fetch today)) s)
  <> Some noSessionsMessage.
Proof.
  unfold POST.
  destruct (dailyMaps (locate fetch today)) as [|m l];
    cbn [List.length Nat.eqb].
  - split; [intros _; reflexivity|]. split; [congruence|].
    vm_compute. discriminate.
  - split; [discriminate|]. split; [intros _; reflexivity|].
    unfold runAnalysis, replyOf, requestRows. cbn. discriminate.
Qed.

(** ** The multiplier and the price change *)

Lemma Qeq_bool_false (q : Q) : ~ q == 0 -> Qeq_bool q 0 = false.
Proof.
  intros Hne. destruct (Qeq_bool q 0) eqn:E; [|reflexivity].
  apply Qeq_bool_iff in E. contradiction.
Qed.

Lemma Qle_bool_false (q : Q) : 0 < q -> Qle_bool q 0 = false.
Proof.
  intros Hpos. destruct (Qle_bool q 0) eqn:E; [|reflexivity].
  apply Qle_bool_iff in E. lra.
Qed.

(** X14. On a row whose high is above its low the multiplier grows with
    the close, from -1 at the low to 1 at the high.  The check does not
    compare high and low: on a row whose high is below its low the
    multiplier falls as the close grows. *)
Theorem mfm_follows_the_close (high low : Q) :
  (low < high ->
   forall c1 c2, c1 <= c2 -> mfm high low c1 <= mfm high low c2) /\
  (high < low ->
   forall c1 c2, c1 <= c2 -> mfm high low c2 <= mfm high low c1) /\
  (~ high - low == 0 ->
   mfm high low low == -1 /\ mfm high low high == 1).
Proof.
  split; [|split].
  - intros Hlt c1 c2 Hc. unfold mfm. cbv zeta.
    rewrite Qeq_bool_false by lra. unfold Qdiv.
    apply Qmult_le_compat_r; [lra|].
    apply Qlt_le_weak, Qinv_lt_0_compat. lra.
  - intros Hlt c1 c2 Hc. unfold mfm. cbv zeta.
    rewrite Qeq_bool_false by lra.
    assert (Hopp : forall x, x / (high - low) == - x / (low - high))
      by (intros x; field; lra).
    rewrite (Hopp (c2 - low - (high - c2))), (Hopp (c1 - low - (high - c1))).
    unfold Qdiv. apply Qmult_le_compat_r; [lra|].
    apply Qlt_le_weak, Qinv_lt_0_compat. lra.
  - intros Hne. unfold mfm. cbv zeta. rewrite Qeq_bool_false by assumption.
    split; field; assumption.
Qed.

(** X15. For an accumulator with both closes set, the price change is
    [(last - first) / first * 100] when the first close is positive and
    the last close is not zero, and then it is positive exactly when the
    last close is above the first; it is 0 when the first close is not
    positive, and also when the last close is zero, where the quotient
    would be -100. *)
Theorem priceChange_cases (a : Aggregated) (f l : Q) :
  firstClose a = Some f -> lastClose a = Some l ->
  (0 < f -> ~ l == 0 ->
   priceChangeOf a = (l - f) / f * 100 /\
   (0 < priceChangeOf a <-> f < l)) /\
  (f <= 0 -> priceChangeOf a = 0) /\
  (l == 0 -> priceChangeOf a = 0).
Proof.
  intros Hf Hl. unfold priceChangeOf, truthy. rewrite Hf, Hl.
  split; [|split].
  - intros Hpos Hne.
    rewrite (Qeq_bool_false f) by lra.
    rewrite (Qeq_bool_false l) by assumption.
    rewrite Qle_bool_false by assumption. cbn [negb andb].
    split; [reflexivity|].
    assert (Hinv : 0 < / f) by now apply Qinv_lt_0_compat.
    assert (Heq : (l - f) / f * 100 == (l - f) * (100 * / f))
      by (field; lra).
    rewrite Heq. split; intros H.
    + assert (0 < 100 * / f) by lra.
      assert (~ l - f <= 0); [|lra].
      intros Hle.
      assert ((l - f) * (100 * / f) <= 0 * (100 * / f))
        by (apply Qmult_le_compat_r; lra).
      lra.
    + apply Qmult_lt_0_compat; lra.
  - intros Hle. destruct (Qle_bool f 0) eqn:E.
    + now rewrite !andb_false_r.
    + apply Qle_bool_iff in Hle. congruence.
  - intros Hz. apply Qeq_bool_iff in Hz. rewrite Hz. cbn [negb].
    now rewrite andb_false_r.
Qed.

Lemma priceChange_cases_witness :
  firstClose scenarioABC = Some 105 /\
  lastClose scenarioABC = Some 118 /\
  priceChangeOf scenarioABC = (118 - 105) / 105 * 100 /\
  (0 < priceChangeOf scenarioABC <-> 105 < 118).
Proof.
  split; [reflexivity|]. split; [reflexivity|].
  destruct (priceChange_cases scenarioABC 105 118 eq_refl eq_refl)
    as [Hpos _].
  assert (H105 : 0 < 105) by reflexivity.
  assert (H118 : ~ 118 == 0) by discriminate.
  destruct (Hpos H105 H118) as (Heq & Hsign).
  split; [exact Heq|exact Hsign].
Defined.

(** ** One symbol at a time *)

(** X16. What is accumulated for a symbol depends on the rows of that
    symbol alone: two lists of sessions, each with one row per symbol, that
    agree session by session on the row of the symbol give it the same
    accumulator, whatever their other rows. *)
Theorem accumulator_depends_on_own_rows
  (chronological chronological' : list (JsMap Row)) (sym : string) :
  Forall (fun m => NoDup (map_keys m)) chronological ->
  Forall (fun m => NoDup (map_keys m)) chronological' ->
  map (map_get sym) chronological = map (map_get sym) chronological' ->
  map_get sym (foldDays [] chronological)
  = map_get sym (foldDays [] chronological').
Proof.
  intros Hnd Hnd' Hrows. rewrite !foldDays_get by assumption.
  cbn [map_get]. generalize (@None Aggregated).
  clear Hnd Hnd'. revert chronological' Hrows.
  induction chronological as [|m chron IH]; intros [|m' chron'] Hrows acc;
    try discriminate; [reflexivity|].
  cbn [map] in Hrows. injection Hrows as Hm Hrest. cbn [fold_left].
  replace (stepSymbol sym acc m') with (stepSymbol sym acc m)
    by (unfold stepSymbol; now rewrite Hm).
  now apply IH.
Qed.

Lemma accumulator_depends_on_own_rows_witness :
  map_get "ABC"
    (foldDays []
       [buildDayMap [eqRow "ABC" "110" "90" "105" "1000" "105000";
                     eqRow "XYZ" "50" "40" "49" "900" "44100"];
        scenarioDay2])
  = map_get "ABC" (foldDays [] [scenarioDay1; scenarioDay2]).
Proof.
  apply accumulator_depends_on_own_rows.
  - repeat constructor; simpl; intuition discriminate.
  - repeat constructor; simpl; tauto.
  - reflexivity.
Defined.
